(** * DashVolcano, page 5: TAS diagrams and chronogram

    A shallow embedding of [pages/page_5.py]: the callback
    [update_charts_rock_vei], the record joiner [update_joint_chemchart] and
    the superimposer [add_chems], followed by the properties of the
    name resolution, the GVP/GEOROC join, the period filter, the calendar
    clamps and the oxide series.

    Conventions of the embedding.
    - A dataframe is the list of its rows, in table order.
    - A numeric cell that pandas stores as a float with NaN for "missing" is
      an [option]: [None] is NaN.  Years, months and days are integers
      ([Z]), oxide weight percents are rationals ([Q]); binary floating
      point error is not modelled.
    - A Python exception is the [Raise] result. *)

From Stdlib Require Import ZArith QArith Qround Qabs Lqa Ascii String List Bool Lia.
From stdpp Require Import base option list gmap strings pretty.

Import ListNotations.
Local Open Scope string_scope.
Local Open Scope Z_scope.

(** ** Exceptions *)

Inductive exn : Type :=
  | IndexError    (* [values[0]] on a frame without rows *)
  | ValueError    (* [int('')], [pd.to_datetime] on an impossible date *)
  | TypeError.    (* a name bound to a frame of another table *)

Inductive result (A : Type) : Type :=
  | Ok (a : A)
  | Raise (e : exn).

Arguments Ok {A} a.
Arguments Raise {A} e.

Definition rbind {A B : Type} (r : result A) (k : A -> result B) : result B :=
  match r with
  | Ok a => k a
  | Raise e => Raise e
  end.

(** ** Python's [str.title], on ASCII text

    A cased character is a letter.  A lowercase letter that does not follow
    a cased character is upper-cased, an uppercase letter that follows one is
    lower-cased, every other character is kept. *)

Definition is_upper (c : ascii) : bool :=
  let n := nat_of_ascii c in (65 <=? n)%nat && (n <=? 90)%nat.

Definition is_lower (c : ascii) : bool :=
  let n := nat_of_ascii c in (97 <=? n)%nat && (n <=? 122)%nat.

Definition to_upper (c : ascii) : ascii :=
  if is_lower c then ascii_of_nat (nat_of_ascii c - 32) else c.

Definition to_lower (c : ascii) : ascii :=
  if is_upper c then ascii_of_nat (nat_of_ascii c + 32) else c.

Fixpoint title_from (previous_is_cased : bool) (s : string) : string :=
  match s with
  | EmptyString => EmptyString
  | String c rest =>
      let c' :=
        if is_lower c then (if previous_is_cased then c else to_upper c)
        else if is_upper c then (if previous_is_cased then to_lower c else c)
        else c in
      String c' (title_from (is_lower c || is_upper c) rest)
  end.

Definition title (s : string) : string := title_from false s.

(** ** Name resolution (page_5.py, lines 276-284 and 322-330)

    [dict_Georoc_sl] maps a long GEOROC name to its short form,
    [dict_Georoc_GVP] maps a GEOROC name to the GVP name. *)

Definition resolve (dict_Georoc_sl dict_Georoc_GVP : gmap string string)
    (volcano_name : string) : string :=
  let n := volcano_name in
  (* handles long names *)
  let n := match dict_Georoc_sl !! n with Some short => short | None => n end in
  (* automatic matching *)
  match dict_Georoc_GVP !! n with
  | Some gvp_name => gvp_name
  | None => title volcano_name
  end.

(** ** Tables

    The fields carry the column names of the two datasets.  [Sample] is a
    row of the GEOROC frame [thisdf] / [dfchem], [Event] a row of the GVP
    eruption table [df]. *)

Record Sample : Type := mkSample {
  ERUPTION_YEAR : option Z;
  ERUPTION_MONTH : option Z;
  ERUPTION_DAY : option Z;
  SIO2 : option Q;
  NA2O : option Q;
  K2O : option Q;
  color : string;
  MATERIAL : string
}.

Record Event : Type := mkEvent {
  Volcano_Name : string;
  Start_Year : Z;
  End_Year : option Z;
  Start_Month : option Z;
  End_Month : option Z;
  VEI : option Z
}.

(** [dfmatch[colsGvp]]: the four columns carried onto the sample rows. *)
Record GvpRow : Type := mkGvpRow {
  gvp_Volcano_Name : string;
  gvp_Start_Year : Z;
  gvp_End_Year : option Z;
  gvp_VEI : option Z
}.

Definition colsGvp (row : Event) : GvpRow :=
  {| gvp_Volcano_Name := Volcano_Name row;
     gvp_Start_Year := Start_Year row;
     gvp_End_Year := End_Year row;
     gvp_VEI := VEI row |}.

(** A row of [dfGvpGeo]: [list(rowgvp) + list(rw)]. *)
Definition Joined : Type := (GvpRow * Sample)%type.

(** ** Float cells *)

(** [not(np.isnan(x)) and (x > 0)] *)
Definition notnan_pos (x : option Z) : bool :=
  match x with
  | Some v => 0 <? v
  | None => false
  end.

(** [a <= b] on floats: false as soon as one side is NaN. *)
Definition fle (a b : option Z) : bool :=
  match a, b with
  | Some u, Some v => u <=? v
  | _, _ => false
  end.

(** Two cells hold the same value, NaN counting as one value: how
    [Series.unique] tells the distinct values. *)
Definition cell_eqb (a b : option Z) : bool :=
  match a, b with
  | Some u, Some v => u =? v
  | None, None => true
  | _, _ => false
  end.

Definition seen_before (x : option Z) (seen : list (option Z)) : bool :=
  existsb (cell_eqb x) seen.

(** [not(np.isnan(x))] *)
Definition notnan (x : option Z) : bool :=
  match x with
  | Some _ => true
  | None => false
  end.

(** [Series.isin(values)] for a list of numpy floats, as pandas 1.5
    decides it: a cell is found by its value, and a NaN cell is found in
    no list, not even in one that holds NaN. *)
Definition isin (x : option Z) (values : list (option Z)) : bool :=
  notnan x && existsb (cell_eqb x) values.

(** [Series.unique()]: the distinct values in order of first appearance,
    NaN once. *)
Fixpoint unique_from (seen : list (option Z)) (l : list (option Z))
  : list (option Z) :=
  match l with
  | [] => []
  | x :: rest =>
      if seen_before x seen then unique_from seen rest
      else x :: unique_from (x :: seen) rest
  end.

Definition unique (l : list (option Z)) : list (option Z) := unique_from [] l.

(** [thisdf['ERUPTION YEAR'] == gy] *)
Definition year_is (gy : Z) (s : Sample) : bool :=
  match ERUPTION_YEAR s with
  | Some y => y =? gy
  | None => false
  end.

(** ** Record joiner (page_5.py, [update_joint_chemchart]) *)

(** Lines 338-339: the null [End Year] of a row is its [Start Year]. *)
Definition fill_End_Year (row : Event) : Event :=
  {| Volcano_Name := Volcano_Name row;
     Start_Year := Start_Year row;
     End_Year := match End_Year row with
                 | None => Some (Start_Year row)
                 | Some e => Some e
                 end;
     Start_Month := Start_Month row;
     End_Month := End_Month row;
     VEI := VEI row |}.

(** Lines 333-339: the per-volcano rows with their end years filled. *)
Definition volcano_rows (df : list Event) (n : string) : list Event :=
  let dfmatchv := List.filter (fun row => String.eqb (Volcano_Name row) n) df in
  if (0 <? length dfmatchv)%nat then map fill_End_Year dfmatchv else dfmatchv.

(** Line 364: the distinct months of the samples of year [gy]. *)
Definition georoc_months (thisdf : list Sample) (gy : Z) : list (option Z) :=
  unique (map ERUPTION_MONTH (List.filter (year_is gy) thisdf)).

(** Lines 369-371: the month ranges of the event rows, without 0 and NaN. *)
Definition gvp_months (dfmatch : list Event) : list (option Z * option Z) :=
  let gvpm := map (fun row => (Start_Month row, End_Month row)) dfmatch in
  List.filter (fun x => notnan_pos (fst x) && notnan_pos (snd x)) gvpm.

(** Line 373: [[[y, x] for x in gvpm for y in gm if x[0] <= y <= x[1]]] *)
Definition found_months (gvpm : list (option Z * option Z)) (gm : list (option Z))
  : list (option Z * (option Z * option Z)) :=
  flat_map (fun x =>
    map (fun y => (y, x))
        (List.filter (fun y => fle (fst x) y && fle y (snd x)) gm)) gvpm.

(** Line 380: the rows whose start month is in [sm] and end month in [em]. *)
Definition month_rows (sm em : list (option Z)) (dfmatch : list Event)
  : list Event :=
  List.filter (fun row => isin (Start_Month row) sm && isin (End_Month row) em)
              dfmatch.

(** Line 367: the test that opens the month matching. *)
Definition month_match_attempted (se : string * string) (gm : list (option Z))
  : bool :=
  String.eqb (fst se) (snd se) && (0 <? length (List.filter notnan_pos gm))%nat.

(** Lines 364-380: the event rows and the sample months that remain for
    one date pair, given the event rows [dfmatch] of that pair. *)
Definition reconcile (dfmatch : list Event) (thisdf : list Sample)
    (gy : Z) (se : string * string) : list Event * list (option Z) :=
  let gm := georoc_months thisdf gy in
  if month_match_attempted se gm then
    let fnd_months := found_months (gvp_months dfmatch) gm in
    if (0 <? length fnd_months)%nat then
      let gm' := map fst fnd_months in
      let sm := map (fun x => fst (snd x)) fnd_months in
      let em := map (fun x => snd (snd x)) fnd_months in
      (month_rows sm em dfmatch, gm')
    else (dfmatch, gm)
  else (dfmatch, gm).

(** Line 386: the samples of year [gy] whose month is in [gm]. *)
Definition rows_georoc (thisdf : list Sample) (gy : Z) (gm : list (option Z))
  : list Sample :=
  List.filter (fun s => year_is gy s && isin (ERUPTION_MONTH s) gm) thisdf.

Section Joiner.

(** How pandas prints the cells of the two year columns
    ([astype(str)]); it depends on the column types the eruption table
    was loaded with. *)
Variable str_Start_Year : Z -> string.
Variable str_End_Year : option Z -> string.

(** Line 362 *)
Definition date_rows (dfmatchv : list Event) (se : string * string)
  : list Event :=
  List.filter (fun row =>
                 String.eqb (str_Start_Year (Start_Year row)) (fst se)
                 && String.eqb (str_End_Year (End_Year row)) (snd se))
              dfmatchv.

(** Lines 359-389, the body of the loop: the rows one date pair adds. *)
Definition join_dse (dfmatchv : list Event) (thisdf : list Sample)
    (dse : Z * (string * string)) : result (list Joined) :=
  let gy := fst dse in
  let se := snd dse in
  let dfmatch := date_rows dfmatchv se in
  let '(dfmatch, gm) := reconcile dfmatch thisdf gy se in
  match dfmatch with
  | [] => Raise IndexError
  | row :: _ =>
      let rowgvp := colsGvp row in
      Ok (map (fun rw => (rowgvp, rw)) (rows_georoc thisdf gy gm))
  end.

(** Lines 358-390: the loop, [dfGvpGeo] growing by [append]. *)
Fixpoint join_dates (dfmatchv : list Event) (thisdf : list Sample)
    (all_dates_gvp : list (Z * (string * string))) (dfGvpGeo : list Joined)
  : result (list Joined) :=
  match all_dates_gvp with
  | [] => Ok dfGvpGeo
  | dse :: rest =>
      rbind (join_dse dfmatchv thisdf dse)
            (fun rowdf => join_dates dfmatchv thisdf rest (dfGvpGeo ++ rowdf))
  end.

End Joiner.

(** ** Date selector (page_5.py, line 348) *)

(** [thisdate.split('-')[0]] *)
Fixpoint before_dash (s : string) : string :=
  match s with
  | EmptyString => EmptyString
  | String c rest =>
      if Ascii.eqb c "-"%char then EmptyString else String c (before_dash rest)
  end.

Fixpoint int_digits (acc : Z) (s : string) : option Z :=
  match s with
  | EmptyString => Some acc
  | String c rest =>
      let n := Z.of_nat (nat_of_ascii c) in
      if (48 <=? n) && (n <=? 57) then int_digits (10 * acc + (n - 48)) rest
      else None
  end.

(** [int(s)] for [s] a run of decimal digits, [ValueError] otherwise (the
    empty string included). *)
Definition py_int (s : string) : result Z :=
  match s with
  | EmptyString => Raise ValueError
  | _ => match int_digits 0 s with
         | Some v => Ok v
         | None => Raise ValueError
         end
  end.

(** ** Superimposer (page_5.py, [add_chems]) *)

Definition fge (x : option Z) (bound : Z) : bool :=
  match x with Some v => bound <=? v | None => false end.

Definition flt (x : option Z) (bound : Z) : bool :=
  match x with Some v => v <? bound | None => false end.

Definition fgt (x : option Z) (bound : Z) : bool :=
  match x with Some v => bound <? v | None => false end.

(** [np.where(col > bound, 1, col)] and [np.where(col < bound, 1, col)] *)
Definition where_gt (bound : Z) (x : option Z) : option Z :=
  if fgt x bound then Some 1 else x.

Definition where_lt (bound : Z) (x : option Z) : option Z :=
  if flt x bound then Some 1 else x.

(** [col.replace(0, 1)] *)
Definition replace_0_1 (x : option Z) : option Z :=
  match x with
  | Some 0 => Some 1
  | _ => x
  end.

(** Lines 426-427 *)
Definition clamp_month (month : option Z) : option Z :=
  where_lt 1 (where_gt 12 month).

(** Lines 429-430 *)
Definition clamp_day (day : option Z) : option Z :=
  replace_0_1 (where_gt 31 day).

(** Assignment to one column of a row: [frame[col] = f(frame[col])]. *)
Definition set_month (f : option Z -> option Z) (s : Sample) : Sample :=
  {| ERUPTION_YEAR := ERUPTION_YEAR s;
     ERUPTION_MONTH := f (ERUPTION_MONTH s);
     ERUPTION_DAY := ERUPTION_DAY s;
     SIO2 := SIO2 s; NA2O := NA2O s; K2O := K2O s;
     color := color s; MATERIAL := MATERIAL s |}.

Definition set_day (f : option Z -> option Z) (s : Sample) : Sample :=
  {| ERUPTION_YEAR := ERUPTION_YEAR s;
     ERUPTION_MONTH := ERUPTION_MONTH s;
     ERUPTION_DAY := f (ERUPTION_DAY s);
     SIO2 := SIO2 s; NA2O := NA2O s; K2O := K2O s;
     color := color s; MATERIAL := MATERIAL s |}.

Definition set_K2O (f : option Q -> option Q) (s : Sample) : Sample :=
  {| ERUPTION_YEAR := ERUPTION_YEAR s;
     ERUPTION_MONTH := ERUPTION_MONTH s;
     ERUPTION_DAY := ERUPTION_DAY s;
     SIO2 := SIO2 s; NA2O := NA2O s; K2O := f (K2O s);
     color := color s; MATERIAL := MATERIAL s |}.

Definition set_NA2O (f : option Q -> option Q) (s : Sample) : Sample :=
  {| ERUPTION_YEAR := ERUPTION_YEAR s;
     ERUPTION_MONTH := ERUPTION_MONTH s;
     ERUPTION_DAY := ERUPTION_DAY s;
     SIO2 := SIO2 s; NA2O := f (NA2O s); K2O := K2O s;
     color := color s; MATERIAL := MATERIAL s |}.

Definition set_SIO2 (f : option Q -> option Q) (s : Sample) : Sample :=
  {| ERUPTION_YEAR := ERUPTION_YEAR s;
     ERUPTION_MONTH := ERUPTION_MONTH s;
     ERUPTION_DAY := ERUPTION_DAY s;
     SIO2 := f (SIO2 s); NA2O := NA2O s; K2O := K2O s;
     color := color s; MATERIAL := MATERIAL s |}.

(** Lines 426-430, on one row. *)
Definition clamp_row (s : Sample) : Sample :=
  set_day replace_0_1
    (set_day (where_gt 31)
       (set_month (where_lt 1)
          (set_month (where_gt 12) s))).

(** The three values of the period radio button. *)
Definition period_BC : string := "BC".
Definition period_before_1679 : string := "before 1679".
Definition period_from_1679 : string := "1679 and after".

(** The row mask of each branch of lines 423-435. *)
Definition period_mask (thisperiod : string) (s : Sample) : bool :=
  if String.eqb thisperiod period_from_1679 then fge (ERUPTION_YEAR s) 1679
  else if String.eqb thisperiod period_before_1679 then
    flt (ERUPTION_YEAR s) 1679 && fgt (ERUPTION_YEAR s) 0
  else flt (ERUPTION_YEAR s) 0.

(** Lines 423-435: the rows of the period, clamped for the last one. *)
Definition period_rows (thisperiod : string) (thisdf : list Sample)
  : list Sample :=
  let rows := List.filter (period_mask thisperiod) thisdf in
  if String.eqb thisperiod period_from_1679
  then map clamp_row rows
  else rows.

(** Python's [round(x, 2)] on the exact value: nearest multiple of 0.01,
    ties to the even one. *)
Definition round_half_even (v : Q) : Z :=
  let f := Qfloor v in
  match Qcompare (v - inject_Z f) (1 # 2) with
  | Lt => f
  | Gt => f + 1
  | Eq => if Z.even f then f else f + 1
  end.

Definition round2 (x : Q) : Q := (inject_Z (round_half_even (x * 100)) / 100)%Q.

(** Lines 438-440, on one row. *)
Definition round_oxides (s : Sample) : Sample :=
  set_SIO2 (option_map round2)
    (set_NA2O (option_map round2)
       (set_K2O (option_map round2) s)).

(** *** [pd.to_datetime] on the year, month and day columns

    pandas assembles the number [year * 10000 + month * 100 + day], reads
    it back as [%Y%m%d] and builds the date: NaT when a field is NaN,
    [ValueError] when the digits are no date of the calendar or the date is
    outside the range of a timestamp (1677-09-22 to 2262-04-11). *)

Definition is_leap (y : Z) : bool :=
  (y mod 4 =? 0) && (negb (y mod 100 =? 0) || (y mod 400 =? 0)).

Definition days_in_month (y m : Z) : Z :=
  match m with
  | 2 => if is_leap y then 29 else 28
  | 4 | 6 | 9 | 11 => 30
  | _ => 31
  end.

Definition valid_date (y m d : Z) : bool :=
  (1 <=? m) && (m <=? 12) && (1 <=? d) && (d <=? days_in_month y m).

Definition in_timestamp_range (y m d : Z) : bool :=
  let v := y * 10000 + m * 100 + d in
  (16770922 <=? v) && (v <=? 22620411).

Inductive xval : Type :=
  | XDate (y m d : Z)
  | XNaT
  | XYear (y : option Z).

Definition to_datetime_row (s : Sample) : result xval :=
  match ERUPTION_YEAR s, ERUPTION_MONTH s, ERUPTION_DAY s with
  | Some year, Some month, Some day =>
      let v := year * 10000 + month * 100 + day in
      let y := v / 10000 in
      let m := (v / 100) mod 100 in
      let d := v mod 100 in
      if (0 <=? v) && valid_date y m d && in_timestamp_range y m d
      then Ok (XDate y m d)
      else Raise ValueError
  | _, _, _ => Ok XNaT
  end.

Fixpoint to_datetime (dffc : list Sample) : result (list xval) :=
  match dffc with
  | [] => Ok []
  | s :: rest =>
      rbind (to_datetime_row s) (fun x =>
      rbind (to_datetime rest) (fun xs => Ok (x :: xs)))
  end.

(** A scatter trace of the chronogram. *)
Record Trace : Type := mkTrace {
  name : string;
  x : list xval;
  customdata : list (list (option Q));
  y : list (option Q)
}.

Definition lift2 (f : Q -> Q -> Q) (a b : option Q) : option Q :=
  match a, b with
  | Some u, Some v => Some (f u v)
  | _, _ => None
  end.

(** Line 460: [(0 - .4) + (K2O + NA2O)/100] *)
Definition alkali_y (s : Sample) : option Q :=
  option_map (fun v => ((0 - (4 # 10)) + v / 100)%Q)
             (lift2 Qplus (K2O s) (NA2O s)).

(** Line 474: [(0 - .4) + SIO2/100] *)
Definition silica_y (s : Sample) : option Q :=
  option_map (fun v => ((0 - (4 # 10)) + v / 100)%Q) (SIO2 s).

(** Lines 447-450 *)
Definition xdate (thisperiod : string) (dffc : list Sample)
  : result (list xval) :=
  if String.eqb thisperiod period_from_1679 then to_datetime dffc
  else Ok (map (fun s => XYear (ERUPTION_YEAR s)) dffc).

(** Lines 445-478: the two traces of one rock label. *)
Definition label_traces (thisperiod : string) (thisdf : list Sample)
    (lbl : string) : result (list Trace) :=
  let dffc := List.filter (fun s => String.eqb (color s) lbl) thisdf in
  rbind (xdate thisperiod dffc) (fun xd =>
    Ok [ {| name := "NA2O+K2O"; x := xd;
            customdata := map (fun s => [NA2O s; K2O s]) dffc;
            y := map alkali_y dffc |};
         {| name := "SIO2"; x := xd;
            customdata := map (fun s => [SIO2 s]) dffc;
            y := map silica_y dffc |} ]).

(** Lines 442-478: the loop over the rock labels. *)
Fixpoint add_traces (thisperiod : string) (thisdf : list Sample)
    (lbls : list string) (thisfig : list Trace) : result (list Trace) :=
  match lbls with
  | [] => Ok thisfig
  | lbl :: rest =>
      rbind (label_traces thisperiod thisdf lbl) (fun ts =>
        add_traces thisperiod thisdf rest (thisfig ++ ts))
  end.

(** The frame the traces are drawn from (lines 423-440). *)
Definition chem_rows (thisperiod : string) (thisdf : list Sample)
  : list Sample :=
  map round_oxides (period_rows thisperiod thisdf).

Definition add_chems (lbls : list string) (thisdf : list Sample)
    (thisfig : list Trace) (thisperiod : string) : result (list Trace) :=
  add_traces thisperiod (chem_rows thisperiod thisdf) lbls thisfig.

(** ** Frames as objects

    The callbacks work on dataframe objects: the eruption table [df] is a
    module-level object shared by all requests, [thisdf] is the caller's
    frame.  A store maps a reference to the frame it names.  Indexing a
    frame with a boolean mask and [rename] build a new frame; assigning to
    a column writes into the frame the name is bound to. *)

Inductive frame : Type :=
  | EventFrame (rows : list Event)
  | SampleFrame (rows : list Sample).

Definition M (A : Type) : Type := gmap nat frame -> result A * gmap nat frame.

Definition ret {A : Type} (a : A) : M A := fun st => (Ok a, st).

Definition lift {A : Type} (r : result A) : M A := fun st => (r, st).

Definition bind {A B : Type} (m : M A) (k : A -> M B) : M B :=
  fun st =>
    match m st with
    | (Ok a, st') => k a st'
    | (Raise e, st') => (Raise e, st')
    end.

Notation "'let!' x ':=' m 'in' k" := (bind m (fun x => k))
  (at level 10, x pattern, m at level 100, k at level 200).

Definition new_frame (f : frame) : M nat :=
  fun st => let r := fresh (dom st) in (Ok r, <[r := f]> st).

Definition assign (r : nat) (f : frame) : M unit :=
  fun st => (Ok tt, <[r := f]> st).

Definition events (r : nat) : M (list Event) :=
  fun st =>
    match st !! r with
    | Some (EventFrame rows) => (Ok rows, st)
    | _ => (Raise TypeError, st)
    end.

Definition samples (r : nat) : M (list Sample) :=
  fun st =>
    match st !! r with
    | Some (SampleFrame rows) => (Ok rows, st)
    | _ => (Raise TypeError, st)
    end.

(** [frame[mask]] *)
Definition getitem_events (mask : Event -> bool) (r : nat) : M nat :=
  let! rows := events r in new_frame (EventFrame (List.filter mask rows)).

Definition getitem_samples (mask : Sample -> bool) (r : nat) : M nat :=
  let! rows := samples r in new_frame (SampleFrame (List.filter mask rows)).

(** [frame.rename(columns=...)] *)
Definition rename (r : nat) : M nat :=
  let! rows := samples r in new_frame (SampleFrame rows).

(** [frame[col] = ...], row by row *)
Definition setitem_events (f : Event -> Event) (r : nat) : M unit :=
  let! rows := events r in assign r (EventFrame (map f rows)).

Definition setitem_samples (f : Sample -> Sample) (r : nat) : M unit :=
  let! rows := samples r in assign r (SampleFrame (map f rows)).

(** ** The two callbacks *)

Section Page.

(** The tables of [config_variables]: the alias dictionaries, the GVP
    eruption table and the rock labels. *)
Variable dict_Georoc_sl : gmap string string.
Variable dict_Georoc_GVP : gmap string string.
Variable df : list Event.
Variable lbls : list string.

Variable str_Start_Year : Z -> string.
Variable str_End_Year : option Z -> string.

(** [match_GVPdates] of [GVP_functions], called with ['forall'] (it
    returns the list of [[year, [start, end]]]) and with one date (it
    returns [[start, end]], the start being ['not found'] when the date
    has no eruption). *)
Variable match_GVPdates_forall : string -> string -> list (Z * (string * string)).
Variable match_GVPdates : string -> string -> string -> string * string.

(** [update_chronogram] of [GVP_functions]: the chronogram of the named
    volcanoes for a period. *)
Variable update_chronogram : list string -> string -> list Trace.

(** Lines 321 and 352: a GVP match is needed. *)
Definition has_gvp_match (thisvolcano_name : string) : bool :=
  bool_decide (is_Some (dict_Georoc_GVP !! thisvolcano_name))
  || bool_decide (is_Some (dict_Georoc_sl !! thisvolcano_name)).

(** Lines 342-350: the date pairs to join. *)
Definition all_dates_gvp (thisvolcano_name thisdate n : string)
  : result (list (Z * (string * string))) :=
  if String.eqb thisdate "all" then
    Ok (match_GVPdates_forall thisvolcano_name n)
  else
    let this_date_gvp := match_GVPdates thisvolcano_name thisdate n in
    if negb (String.eqb (fst this_date_gvp) "not found") then
      rbind (py_int (before_dash thisdate)) (fun gy =>
        Ok [(gy, this_date_gvp)])
    else Ok [].

(** [update_joint_chemchart], the frame [dff] it returns.  [None] is
    Python's [None]. *)
Definition update_joint_chemchart (thisvolcano_name : option string)
    (thisdf : list Sample) (thisdate : string) : result (list Joined) :=
  match thisvolcano_name with
  | None => Ok []
  | Some volcano =>
      if String.eqb volcano "start" then Ok []
      else if has_gvp_match volcano then
        let n := resolve dict_Georoc_sl dict_Georoc_GVP volcano in
        let dfmatchv := volcano_rows df n in
        rbind (all_dates_gvp volcano thisdate n) (fun dates =>
          join_dates str_Start_Year str_End_Year dfmatchv thisdf dates [])
      else Ok []
  end.

(** What [update_charts_rock_vei] computes for the chronogram and for the
    second TAS diagram: the names the chronogram is asked for ([None]
    for the empty [go.Figure()]), the chronogram traces and the joined
    frame.  [dfchem] is the frame [update_chemchart] returned. *)
Record Charts : Type := mkCharts {
  chronogram_names : option (list string);
  fig2 : list Trace;
  figgvp_df : list Joined
}.

Definition update_charts_rock_vei (volcano_name : option string)
    (dfchem : list Sample) (date period_choice : string)
    (addGEOROC : list string) : result Charts :=
  match volcano_name with
  | None =>
      Ok {| chronogram_names := None; fig2 := []; figgvp_df := [] |}
  | Some volcano =>
      if String.eqb volcano "start" then
        Ok {| chronogram_names := None; fig2 := []; figgvp_df := [] |}
      else
        let n := resolve dict_Georoc_sl dict_Georoc_GVP volcano in
        let fig2 := update_chronogram [n] period_choice in
        rbind (if (0 <? length addGEOROC)%nat
               then add_chems lbls dfchem fig2 period_choice
               else Ok fig2) (fun fig2 =>
        rbind (update_joint_chemchart volcano_name dfchem date) (fun dff =>
          Ok {| chronogram_names := Some [n]; fig2 := fig2;
                figgvp_df := dff |}))
  end.

(** *** The same two functions on frame objects

    [df_ref] names the shared eruption table, [thisdf_ref] the caller's
    sample frame. *)

Definition update_joint_chemchart_st (df_ref thisdf_ref : nat)
    (thisvolcano_name : option string) (thisdate : string)
  : M (list Joined) :=
  match thisvolcano_name with
  | None => ret []
  | Some volcano =>
      if String.eqb volcano "start" then ret []
      else if has_gvp_match volcano then
        let n := resolve dict_Georoc_sl dict_Georoc_GVP volcano in
        (* line 333 *)
        let! dfmatchv :=
          getitem_events (fun row => String.eqb (Volcano_Name row) n) df_ref in
        let! rows := events dfmatchv in
        (* lines 336-339 *)
        let! _ := (if (0 <? length rows)%nat
                   then setitem_events fill_End_Year dfmatchv
                   else ret tt) in
        let! dates := lift (all_dates_gvp volcano thisdate n) in
        let! rows := events dfmatchv in
        let! thisdf := samples thisdf_ref in
        lift (join_dates str_Start_Year str_End_Year rows thisdf dates [])
      else ret []
  end.

Definition add_chems_st (thisdf_ref : nat) (thisfig : list Trace)
    (thisperiod : string) : M (list Trace) :=
  let! thisdf :=
    (if String.eqb thisperiod period_from_1679 then
       let! r := getitem_samples (period_mask thisperiod) thisdf_ref in
       let! r := rename r in
       let! _ := setitem_samples (set_month (where_gt 12)) r in
       let! _ := setitem_samples (set_month (where_lt 1)) r in
       let! _ := setitem_samples (set_day (where_gt 31)) r in
       let! _ := setitem_samples (set_day replace_0_1) r in
       ret r
     else getitem_samples (period_mask thisperiod) thisdf_ref) in
  let! _ := setitem_samples (set_K2O (option_map round2)) thisdf in
  let! _ := setitem_samples (set_NA2O (option_map round2)) thisdf in
  let! _ := setitem_samples (set_SIO2 (option_map round2)) thisdf in
  let! rows := samples thisdf in
  lift (add_traces thisperiod rows lbls thisfig).

End Page.

(** ** Instances used by the examples *)

(** Integer year columns print as decimal numbers, a missing cell as
    [nan]. *)
Definition str_int (year : Z) : string := pretty year.

Definition str_cell (year : option Z) : string :=
  match year with
  | Some v => pretty v
  | None => "nan"
  end.

(** Modelled from the spec: [match_GVPdates] of [GVP_functions] is not part
    of page_5.py.  With the selector "all" it returns every distinct
    (year, [start, end]) pair available for the canonical name across the
    event dataset, a null end year counting as the start year. *)
Definition match_GVPdates_forall_spec (df : list Event)
    (rawName canonicalName : string) : list (Z * (string * string)) :=
  remove_dups
    (map (fun row => (Start_Year row,
                      (str_int (Start_Year row), str_cell (End_Year row))))
         (volcano_rows df canonicalName)).

(** A date matcher that finds no eruption for a single date. *)
Definition match_GVPdates_not_found (rawName date canonicalName : string)
  : string * string := ("not found", "not found").

(** A chronogram without traces. *)
Definition no_chronogram (names : list string) (period : string)
  : list Trace := [].

Definition georoc_sample (year month day : option Z) (sio2 : option Q)
  : Sample :=
  {| ERUPTION_YEAR := year; ERUPTION_MONTH := month; ERUPTION_DAY := day;
     SIO2 := sio2; NA2O := Some (381 # 100)%Q; K2O := Some (152 # 100)%Q;
     color := "ANDESITE"; MATERIAL := "WR" |}.

Definition gvp_event (volcano : string) (year : Z) (months : option Z * option Z)
  : Event :=
  {| Volcano_Name := volcano; Start_Year := year; End_Year := None;
     Start_Month := fst months; End_Month := snd months; VEI := Some 3 |}.

(** The three periods of the radio button. *)
Definition periods : list string :=
  [period_BC; period_before_1679; period_from_1679].

(** A sample of year 0. *)
Definition sample_of_year_0 : Sample :=
  georoc_sample (Some 0) (Some 6) (Some 15) (Some (55 # 1)%Q).

(** A sample of 1883 with month 13 and day -1. *)
Definition sample_day_minus_1 : Sample :=
  georoc_sample (Some 1883) (Some 13) (Some (-1)) (Some (62345 # 1000)%Q).

(** Line 374 and line 367 together: the month matching was attempted and
    found at least one combination. *)
Definition reconciled (dfmatch : list Event) (thisdf : list Sample)
    (gy : Z) (se : string * string) : bool :=
  let gm := georoc_months thisdf gy in
  month_match_attempted se gm
  && (0 <? length (found_months (gvp_months dfmatch) gm))%nat.

Definition month_range (row : Event) : option Z * option Z :=
  (Start_Month row, End_Month row).

(** Three eruptions of one year whose month ranges cross, and two samples
    of that year. *)
Definition crossing_events : list Event :=
  [ gvp_event "Etna" 1923 (Some 3, Some 5);
    gvp_event "Etna" 1923 (Some 3, Some 10);
    gvp_event "Etna" 1923 (Some 1, Some 5) ].

Definition crossing_samples : list Sample :=
  [ georoc_sample (Some 1923) (Some 2) (Some 11) (Some (48 # 1)%Q);
    georoc_sample (Some 1923) (Some 8) (Some 20) (Some (49 # 1)%Q) ].

(** One eruption of Krakatau and a sample of its year. *)
Definition krakatau_events : list Event :=
  [ gvp_event "Krakatau" 1883 (Some 5, Some 10) ].

Definition krakatau_sample : Sample :=
  georoc_sample (Some 1883) (Some 8) (Some 27) (Some (62345 # 1000)%Q).

(** A sample of 1883 whose month is recorded as 0. *)
Definition krakatau_sample_month_0 : Sample :=
  georoc_sample (Some 1883) (Some 0) (Some 0) (Some (60 # 1)%Q).

(** Alias tables in which KRAKATAU has a short form that the table of GVP
    names does not know. *)
Definition sl_krakatau : gmap string string :=
  {[ "KRAKATAU" := "KRAKATAU - SUNDA STRAIT" ]}.

Definition gvp_vesuvius : gmap string string :=
  {[ "VESUVIUS" := "Vesuvius" ]}.

(** A computation is safe for a set [D] of references when, started in a
    store that holds them, it leaves the frame of each of them as it was,
    and its value, if any, satisfies [P]. *)
Definition frame_safe {A : Type} (D : gset nat) (P : A -> Prop) (m : M A)
  : Prop :=
  forall st, D ⊆ dom st ->
    D ⊆ dom (snd (m st))
    /\ (forall r, r ∈ D -> snd (m st) !! r = st !! r)
    /\ match fst (m st) with Ok a => P a | Raise _ => True end.

(** A store with the eruption table at 0 and a sample frame at 1. *)
Definition two_frames (df : list Event) (thisdf : list Sample)
  : gmap nat frame :=
  {[ 0%nat := EventFrame df; 1%nat := SampleFrame thisdf ]}.

Definition gvp_krakatau : gmap string string :=
  {[ "KRAKATAU" := "Krakatau" ]}.

(** A sample dated 30 February 1883. *)
Definition sample_30_february : Sample :=
  georoc_sample (Some 1883) (Some 2) (Some 30) (Some (57 # 1)%Q).

(** The month and the day of a sample once lines 426-430 have run, for a
    day that is not negative. *)
Definition clamped_month (m : Z) : Z := if (1 <=? m) && (m <=? 12) then m else 1.

Definition clamped_day (d : Z) : Z := if (1 <=? d) && (d <=? 31) then d else 1.

(** A sample from which lines 424-448 can build a date or NaT: one of
    its three calendar fields is null, or it is older than 1679, or its
    year is at most 2261, its day is not negative and its clamped day
    exists in its clamped month. *)
Definition datable (s : Sample) : bool :=
  match ERUPTION_YEAR s, ERUPTION_MONTH s, ERUPTION_DAY s with
  | Some y, Some m, Some d =>
      (y <? 1679)
      || ((y <=? 2261) && (0 <=? d)
          && (clamped_day d <=? days_in_month y (clamped_month m)))
  | _, _, _ => true
  end.

(** A date matcher that answers every single date with the eruption of
    1883. *)
Definition match_GVPdates_1883 (rawName date canonicalName : string)
  : string * string := ("1883", "1883").

(** * Properties *)

(** ** Name resolution *)

Example title_words : title "mount st. helens" = "Mount St. Helens".
Proof. reflexivity. Qed.

Example title_upper : title "KRAKATAU-anak" = "Krakatau-Anak".
Proof. reflexivity. Qed.

(** The short form, when there is one, is the key of the second lookup. *)
Lemma resolve_short sl gvp raw short :
  sl !! raw = Some short ->
  resolve sl gvp raw = default (title raw) (gvp !! short).
Proof.
  intros Hsl. unfold resolve. rewrite Hsl. now destruct (gvp !! short).
Qed.

Lemma resolve_no_short sl gvp raw :
  sl !! raw = None ->
  resolve sl gvp raw = default (title raw) (gvp !! raw).
Proof.
  intros Hsl. unfold resolve. rewrite Hsl. now destruct (gvp !! raw).
Qed.

(** C6.  Name resolution looks the raw name up in the raw-to-short table,
    then looks the possibly replaced value up in the table of GVP names:
    a hit of the second lookup is the result, a miss gives the title-cased
    original raw name, not the title-cased short form.  The resolution is a
    total function: no name makes it fail. *)
Theorem resolve_lookup_order (sl gvp : gmap string string) (raw key : string) :
  key = default raw (sl !! raw) ->
  (forall canonical, gvp !! key = Some canonical ->
                     resolve sl gvp raw = canonical)
  /\ (gvp !! key = None -> resolve sl gvp raw = title raw).
Proof.
  intros ->. destruct (sl !! raw) as [short|] eqn:Hsl; simpl.
  - rewrite (resolve_short _ _ _ _ Hsl).
    split; [intros c Hc | intros Hc]; now rewrite Hc.
  - rewrite (resolve_no_short _ _ _ Hsl).
    split; [intros c Hc | intros Hc]; now rewrite Hc.
Qed.

(** A long name with a short form that the GVP table does not know: the
    result is the raw name in title case. *)
Lemma resolve_lookup_order_witness :
  let sl : gmap string string := {[ "ETNA, SICILY" := "ETNA" ]} in
  let gvp : gmap string string := {[ "VESUVIUS" := "Vesuvius" ]} in
  resolve sl gvp "ETNA, SICILY" = "Etna, Sicily"
  /\ resolve sl gvp "VESUVIUS" = "Vesuvius".
Proof.
  intros sl gvp. split.
  - apply (resolve_lookup_order sl gvp "ETNA, SICILY" "ETNA").
    + vm_compute. reflexivity.
    + vm_compute. reflexivity.
  - destruct (resolve_lookup_order sl gvp "VESUVIUS" "VESUVIUS") as [Hhit _].
    + vm_compute. reflexivity.
    + apply Hhit. vm_compute. reflexivity.
Defined.

(** ** Periods *)

Lemma period_mask_BC s : period_mask period_BC s = flt (ERUPTION_YEAR s) 0.
Proof. reflexivity. Qed.

Lemma period_mask_before_1679 s :
  period_mask period_before_1679 s
  = flt (ERUPTION_YEAR s) 1679 && fgt (ERUPTION_YEAR s) 0.
Proof. reflexivity. Qed.

Lemma period_mask_from_1679 s :
  period_mask period_from_1679 s = fge (ERUPTION_YEAR s) 1679.
Proof. reflexivity. Qed.

(** A sample without a year is in no period. *)
Lemma period_mask_null_year s p :
  ERUPTION_YEAR s = None -> period_mask p s = false.
Proof.
  intros H. unfold period_mask. rewrite H. simpl.
  now destruct (String.eqb p period_from_1679),
               (String.eqb p period_before_1679).
Qed.

(** C3, the claim at year 0: the sample is in the range 0 <= year < 1679
    that the claim gives to the middle period, and the filter of no period
    admits it. *)
Lemma year_0_in_no_period :
  ERUPTION_YEAR sample_of_year_0 = Some 0
  /\ period_mask period_before_1679 sample_of_year_0 = false
  /\ List.filter (fun p => period_mask p sample_of_year_0) periods = [].
Proof. repeat split. Qed.

(** C3, as the code has it.  For a sample of year [year]: the filter of
    the BC period admits it exactly when year < 0, the filter of the period
    before 1679 exactly when 0 < year < 1679, the filter of the last period
    exactly when 1679 <= year; every year other than 0 is admitted by
    exactly one of the three filters. *)
Theorem period_partition (s : Sample) (year : Z) :
  ERUPTION_YEAR s = Some year ->
  (period_mask period_BC s = true <-> year < 0)
  /\ (period_mask period_before_1679 s = true <-> 0 < year < 1679)
  /\ (period_mask period_from_1679 s = true <-> 1679 <= year)
  /\ (year <> 0 ->
      length (List.filter (fun p => period_mask p s) periods) = 1%nat).
Proof.
  intros Hy. unfold periods. cbn [List.filter].
  rewrite period_mask_BC, period_mask_before_1679, period_mask_from_1679.
  rewrite Hy. unfold flt, fgt, fge.
  destruct (Z.ltb_spec year 0), (Z.ltb_spec year 1679),
           (Z.ltb_spec 0 year), (Z.leb_spec 1679 year);
    cbn; repeat split; intros; try lia; try discriminate; reflexivity.
Qed.

Lemma period_partition_witness :
  period_mask period_BC (georoc_sample (Some (-79)) None None None) = true
  /\ period_mask period_from_1679
       (georoc_sample (Some 1883) (Some 8) (Some 27) None) = true.
Proof.
  split.
  - apply (period_partition (georoc_sample (Some (-79)) None None None) (-79)).
    + reflexivity.
    + lia.
  - apply (period_partition
             (georoc_sample (Some 1883) (Some 8) (Some 27) None) 1883).
    + reflexivity.
    + lia.
Defined.

(** ** Calendar clamps *)

Lemma clamp_row_month s :
  ERUPTION_MONTH (clamp_row s) = clamp_month (ERUPTION_MONTH s).
Proof. reflexivity. Qed.

Lemma clamp_row_day s :
  ERUPTION_DAY (clamp_row s) = clamp_day (ERUPTION_DAY s).
Proof. reflexivity. Qed.

(** Every month outside 1..12 becomes 1. *)
Lemma clamp_month_spec (m : Z) :
  clamp_month (Some m) = Some (if (1 <=? m) && (m <=? 12) then m else 1).
Proof.
  unfold clamp_month, where_gt, where_lt, fgt, flt.
  destruct (Z.ltb_spec 12 m); cbn.
  - destruct (Z.leb_spec 1 m), (Z.leb_spec m 12); cbn; try lia; reflexivity.
  - destruct (Z.ltb_spec m 1), (Z.leb_spec 1 m), (Z.leb_spec m 12);
      cbn; try lia; reflexivity.
Qed.

(** A day above 31 and the day 0 become 1; the days 1..31 are kept. *)
Lemma clamp_day_spec (d : Z) :
  0 <= d ->
  clamp_day (Some d) = Some (if (1 <=? d) && (d <=? 31) then d else 1).
Proof.
  intros Hd. unfold clamp_day, where_gt, fgt.
  destruct (Z.ltb_spec 31 d); cbn.
  - destruct (Z.leb_spec 1 d), (Z.leb_spec d 31); cbn; try lia; reflexivity.
  - destruct d as [|d|d]; cbn; try lia; try reflexivity.
    destruct (Z.leb_spec 1 (Z.pos d)), (Z.leb_spec (Z.pos d) 31);
      cbn; try lia; reflexivity.
Qed.

(** A negative day passes both day clamps. *)
Lemma clamp_day_negative (d : Z) : d < 0 -> clamp_day (Some d) = Some d.
Proof.
  intros Hd. unfold clamp_day, where_gt, fgt.
  destruct (Z.ltb_spec 31 d); [lia|]. destruct d; cbn; try lia; reflexivity.
Qed.

(** C7, the code on a sample of 1883 with month 13 and day -1: the month
    becomes 1, the day stays -1. *)
Lemma negative_day_not_clamped :
  map (fun s => (ERUPTION_MONTH s, ERUPTION_DAY s))
      (period_rows period_from_1679 [sample_day_minus_1])
  = [(Some 1, Some (-1))].
Proof. reflexivity. Qed.

(** ** Cells, membership and distinct values *)

Lemma cell_eqb_eq a b : cell_eqb a b = true <-> a = b.
Proof.
  destruct a as [u|], b as [v|]; cbn; split; intros H;
    try discriminate; try reflexivity.
  - apply Z.eqb_eq in H. now subst.
  - injection H as ->. apply Z.eqb_refl.
Qed.

Lemma seen_before_In x l : seen_before x l = true <-> In x l.
Proof.
  unfold seen_before. rewrite existsb_exists. split.
  - intros (y & Hy & Heq). apply cell_eqb_eq in Heq. now subst.
  - intros H. exists x. split; [assumption | now apply cell_eqb_eq].
Qed.

Lemma seen_before_false x l : seen_before x l = false <-> ~ In x l.
Proof.
  rewrite <- seen_before_In. destruct (seen_before x l); split; intros H;
    try reflexivity; try discriminate; try (intros ?; discriminate).
  now exfalso; apply H.
Qed.

(** A cell is found by [isin] when it is not NaN and its value is in the
    list. *)
Lemma isin_In x l : isin x l = true <-> notnan x = true /\ In x l.
Proof.
  unfold isin. now rewrite andb_true_iff, <- seen_before_In.
Qed.

Lemma isin_nan l : isin None l = false.
Proof. reflexivity. Qed.

Lemma In_unique_from l : forall seen x,
  In x (unique_from seen l) <-> In x l /\ ~ In x seen.
Proof.
  induction l as [|a l IH]; intros seen x; cbn.
  - tauto.
  - destruct (seen_before a seen) eqn:Ha.
    + apply seen_before_In in Ha. rewrite IH. split.
      * intros [H1 H2]. tauto.
      * intros [[-> | H1] H2]; [contradiction | tauto].
    + apply seen_before_false in Ha. cbn. rewrite IH. cbn. split.
      * intros [-> | [H1 H2]]; tauto.
      * intros [[-> | H1] H2]; [now left |].
        destruct (decide (a = x)) as [-> | Hne]; [now left | right].
        split; [assumption | tauto].
Qed.

Lemma In_unique x l : In x (unique l) <-> In x l.
Proof. unfold unique. rewrite In_unique_from. cbn. tauto. Qed.

(** ** Record joiner *)

Lemma year_is_true gy s : year_is gy s = true <-> ERUPTION_YEAR s = Some gy.
Proof.
  unfold year_is. destruct (ERUPTION_YEAR s) as [y|]; split; intros H;
    try discriminate.
  - apply Z.eqb_eq in H. now subst.
  - injection H as ->. apply Z.eqb_refl.
Qed.

Lemma In_rows_georoc thisdf gy gm s :
  In s (rows_georoc thisdf gy gm)
  <-> In s thisdf /\ ERUPTION_YEAR s = Some gy
      /\ notnan (ERUPTION_MONTH s) = true /\ In (ERUPTION_MONTH s) gm.
Proof.
  unfold rows_georoc. rewrite filter_In, andb_true_iff, year_is_true, isin_In.
  tauto.
Qed.

Lemma In_georoc_months thisdf gy m :
  In m (georoc_months thisdf gy)
  <-> exists s, In s thisdf /\ ERUPTION_YEAR s = Some gy /\ ERUPTION_MONTH s = m.
Proof.
  unfold georoc_months. rewrite In_unique, in_map_iff. split.
  - intros (s & Hm & Hs). apply filter_In in Hs as [Hs Hy].
    apply year_is_true in Hy. now exists s.
  - intros (s & Hs & Hy & Hm). exists s. split; [assumption |].
    apply filter_In. split; [assumption | now apply year_is_true].
Qed.

(** With the months of the year as they are, the month test of line 386
    keeps the samples of the year whose month is not null. *)
Lemma rows_georoc_all_months thisdf gy :
  rows_georoc thisdf gy (georoc_months thisdf gy)
  = List.filter (fun s => year_is gy s && notnan (ERUPTION_MONTH s)) thisdf.
Proof.
  unfold rows_georoc. apply filter_ext_in. intros s Hs.
  destruct (year_is gy s) eqn:Hy; [cbn | reflexivity].
  destruct (notnan (ERUPTION_MONTH s)) eqn:Hm.
  - apply isin_In. split; [assumption |].
    apply In_georoc_months. exists s. apply year_is_true in Hy. auto.
  - unfold isin. now rewrite Hm.
Qed.

Lemma In_gvp_months dfmatch x :
  In x (gvp_months dfmatch)
  <-> (exists row, In row dfmatch /\ month_range row = x)
      /\ notnan_pos (fst x) = true /\ notnan_pos (snd x) = true.
Proof.
  unfold gvp_months. rewrite filter_In, in_map_iff, andb_true_iff.
  unfold month_range. split.
  - intros [(row & Heq & Hrow) H]. split; [now exists row | assumption].
  - intros [(row & Hrow & Heq) H]. split; [now exists row | assumption].
Qed.

Lemma In_found_months gvpm gm y x :
  In (y, x) (found_months gvpm gm)
  <-> In x gvpm /\ In y gm /\ fle (fst x) y = true /\ fle y (snd x) = true.
Proof.
  unfold found_months. rewrite in_flat_map. split.
  - intros (x' & Hx' & Hin). apply in_map_iff in Hin as (y' & Heq & Hy').
    injection Heq as -> ->. apply filter_In in Hy' as [Hy' Hle].
    apply andb_true_iff in Hle. tauto.
  - intros (Hx & Hy & H1 & H2). exists x. split; [assumption |].
    apply in_map_iff. exists y. split; [reflexivity |].
    apply filter_In. split; [assumption |]. now rewrite H1, H2.
Qed.

(** A sample month of a found combination is a number above 0. *)
Lemma found_month_positive dfmatch gm y x :
  In (y, x) (found_months (gvp_months dfmatch) gm) ->
  exists m, y = Some m /\ 0 < m.
Proof.
  intros H. apply In_found_months in H as (Hx & _ & Hle & _).
  apply In_gvp_months in Hx as (_ & Hpos & _).
  destruct x as [[a|] b]; cbn in *; try discriminate.
  destruct y as [m|]; try discriminate.
  exists m. split; [reflexivity |].
  apply Z.ltb_lt in Hpos. apply Z.leb_le in Hle. lia.
Qed.

Lemma reconcile_eq dfmatch thisdf gy se :
  reconcile dfmatch thisdf gy se
  = if reconciled dfmatch thisdf gy se then
      let fnd := found_months (gvp_months dfmatch) (georoc_months thisdf gy) in
      (month_rows (map (fun x => fst (snd x)) fnd)
                  (map (fun x => snd (snd x)) fnd) dfmatch,
       map fst fnd)
    else (dfmatch, georoc_months thisdf gy).
Proof.
  unfold reconcile, reconciled.
  destruct (month_match_attempted se (georoc_months thisdf gy)); cbn;
    [| reflexivity].
  now destruct (Nat.ltb 0 (length (found_months (gvp_months dfmatch)
                                                (georoc_months thisdf gy)))).
Qed.

(** The month matching is attempted only for a date pair with equal start
    and end strings and a sample of the year with a month above 0. *)
Lemma month_match_attempted_iff thisdf gy se :
  month_match_attempted se (georoc_months thisdf gy) = true
  <-> fst se = snd se
      /\ exists s m, In s thisdf /\ ERUPTION_YEAR s = Some gy
                     /\ ERUPTION_MONTH s = Some m /\ 0 < m.
Proof.
  unfold month_match_attempted.
  rewrite andb_true_iff, String.eqb_eq, Nat.ltb_lt. split.
  - intros [Heq Hlen]. split; [assumption |].
    destruct (List.filter notnan_pos (georoc_months thisdf gy)) as [|m l] eqn:Hf;
      [cbn in Hlen; lia |].
    assert (Hin : In m (List.filter notnan_pos (georoc_months thisdf gy)))
      by (rewrite Hf; now left).
    apply filter_In in Hin as [Hin Hpos].
    apply In_georoc_months in Hin as (s & Hs & Hy & Hm).
    destruct m as [m|]; [| discriminate]. apply Z.ltb_lt in Hpos.
    now exists s, m.
  - intros [Heq (s & m & Hs & Hy & Hm & Hpos)]. split; [assumption |].
    assert (Hin : In (Some m) (List.filter notnan_pos (georoc_months thisdf gy))).
    { apply filter_In. split.
      - apply In_georoc_months. now exists s.
      - cbn. now apply Z.ltb_lt. }
    destruct (List.filter notnan_pos (georoc_months thisdf gy));
      [contradiction | cbn; lia].
Qed.

(** Without a found combination the event rows are used as they are, and
    the samples of the year whose month is not null. *)
Lemma reconcile_fallback dfmatch thisdf gy se :
  reconciled dfmatch thisdf gy se = false ->
  reconcile dfmatch thisdf gy se = (dfmatch, georoc_months thisdf gy)
  /\ rows_georoc thisdf gy (snd (reconcile dfmatch thisdf gy se))
     = List.filter (fun s => year_is gy s && notnan (ERUPTION_MONTH s)) thisdf.
Proof.
  intros H. rewrite reconcile_eq, H. cbn.
  split; [reflexivity | apply rows_georoc_all_months].
Qed.

(** A row whose month range is in a found combination is kept by the month
    filter of line 380. *)
Lemma month_rows_keeps_found dfmatch gm row y :
  In row dfmatch ->
  In (y, month_range row) (found_months (gvp_months dfmatch) gm) ->
  let fnd := found_months (gvp_months dfmatch) gm in
  In row (month_rows (map (fun x => fst (snd x)) fnd)
                     (map (fun x => snd (snd x)) fnd) dfmatch).
Proof.
  intros Hrow Hf fnd. unfold month_rows. apply filter_In.
  split; [assumption |].
  pose proof Hf as Hpos. apply In_found_months in Hpos as (Hpos & _).
  apply In_gvp_months in Hpos as (_ & Hstart & Hend).
  unfold month_range in Hstart, Hend. cbn [fst snd] in Hstart, Hend.
  apply andb_true_iff. split; apply isin_In; split.
  - now destruct (Start_Month row).
  - apply in_map_iff. now exists (y, month_range row).
  - now destruct (End_Month row).
  - apply in_map_iff. now exists (y, month_range row).
Qed.

(** C1, the code on three eruptions of 1923 with the month ranges (3,5),
    (3,10) and (1,5) and samples of the months 2 and 8.  The combinations
    found are month 8 with (3,10) and month 2 with (1,5).  The range (3,5)
    is in no combination, and its row passes the filter of line 380, since
    3 is a found start month and 5 a found end month; being the first
    row, it is the one joined to the samples. *)
Lemma crossing_ranges_row_kept :
  let dfmatch := date_rows str_int str_cell
                   (volcano_rows crossing_events "Etna") ("1923", "1923") in
  let gm := georoc_months crossing_samples 1923 in
  month_match_attempted ("1923", "1923") gm = true
  /\ found_months (gvp_months dfmatch) gm
     = [ (Some 8, (Some 3, Some 10)); (Some 2, (Some 1, Some 5)) ]
  /\ map month_range (fst (reconcile dfmatch crossing_samples 1923 ("1923", "1923")))
     = [ (Some 3, Some 5); (Some 3, Some 10); (Some 1, Some 5) ]
  /\ snd (reconcile dfmatch crossing_samples 1923 ("1923", "1923"))
     = [ Some 8; Some 2 ]
  /\ join_dse str_int str_cell (volcano_rows crossing_events "Etna")
       crossing_samples (1923, ("1923", "1923"))
     = Ok (map (fun rw => (colsGvp (fill_End_Year
                                      (gvp_event "Etna" 1923 (Some 3, Some 5))),
                           rw))
               crossing_samples).
Proof. vm_compute. repeat split. Qed.

(** C4, the claim on the fallback path: the only sample of 1883 has the
    month 0, no month matching is attempted, and the sample is joined. *)
Lemma month_0_sample_joined :
  join_dse str_int str_cell (volcano_rows krakatau_events "Krakatau")
    [krakatau_sample_month_0] (1883, ("1883", "1883"))
  = Ok [ (colsGvp (fill_End_Year (gvp_event "Krakatau" 1883 (Some 5, Some 10))),
          krakatau_sample_month_0) ]
  /\ ERUPTION_MONTH krakatau_sample_month_0 = Some 0.
Proof. vm_compute. split; reflexivity. Qed.

Section JoinerFacts.

Variable str_Start_Year : Z -> string.
Variable str_End_Year : option Z -> string.

(** A date pair without event rows makes line 384 raise. *)
Lemma join_dse_no_event_row dfmatchv thisdf gy se :
  date_rows str_Start_Year str_End_Year dfmatchv se = [] ->
  join_dse str_Start_Year str_End_Year dfmatchv thisdf (gy, se)
  = Raise IndexError.
Proof.
  intros H. unfold join_dse. cbn [fst snd]. rewrite H, reconcile_eq.
  now destruct (reconciled [] thisdf gy se).
Qed.

(** Every sample joined for a date pair is a row of the sample frame of
    the year of the pair and its month is not null; when the month
    matching found at least one combination, the month is above 0. *)
Lemma join_dse_sample dfmatchv thisdf gy se rows (j : Joined) :
  join_dse str_Start_Year str_End_Year dfmatchv thisdf (gy, se) = Ok rows ->
  In j rows ->
  In (snd j) thisdf
  /\ ERUPTION_YEAR (snd j) = Some gy
  /\ exists m,
       ERUPTION_MONTH (snd j) = Some m
       /\ (reconciled (date_rows str_Start_Year str_End_Year dfmatchv se)
             thisdf gy se = true -> 0 < m).
Proof.
  unfold join_dse. cbn [fst snd]. rewrite reconcile_eq.
  set (dfmatch := date_rows _ _ dfmatchv se).
  destruct (reconciled dfmatch thisdf gy se) eqn:Hrec; cbn zeta.
  - destruct (month_rows _ _ dfmatch) as [|row rest]; [discriminate |].
    intros [= <-] Hj. apply in_map_iff in Hj as (s & <- & Hs). cbn [snd].
    apply In_rows_georoc in Hs as (Hs & Hy & _ & Hm).
    repeat split; [assumption | assumption |].
    apply in_map_iff in Hm as ([y x] & Hyx & Hf). cbn in Hyx. subst y.
    apply found_month_positive in Hf as (m & Hm & Hpos).
    exists m. split; [assumption | intros _; assumption].
  - destruct dfmatch as [|row rest]; [discriminate |].
    intros [= <-] Hj. apply in_map_iff in Hj as (s & <- & Hs). cbn [snd].
    apply In_rows_georoc in Hs as (Hs & Hy & Hnn & _).
    repeat split; [assumption | assumption |].
    destruct (ERUPTION_MONTH s) as [m|]; [| discriminate].
    exists m. split; [reflexivity | discriminate].
Qed.

(** A row of the joined frame was already there or comes from one of the
    date pairs. *)
Lemma join_dates_In dfmatchv thisdf dates : forall acc rows (j : Joined),
  join_dates str_Start_Year str_End_Year dfmatchv thisdf dates acc = Ok rows ->
  In j rows ->
  In j acc
  \/ exists dse rowdf,
       In dse dates
       /\ join_dse str_Start_Year str_End_Year dfmatchv thisdf dse = Ok rowdf
       /\ In j rowdf.
Proof.
  induction dates as [|dse rest IH]; intros acc rows j; cbn.
  - intros [= <-] Hj. now left.
  - destruct (join_dse _ _ dfmatchv thisdf dse) as [rowdf | e] eqn:Hdse;
      cbn; [| discriminate].
    intros Hrest Hj. destruct (IH _ _ _ Hrest Hj) as [Hacc | Hlater].
    + apply in_app_or in Hacc as [Hacc | Hnew]; [now left |].
      right. exists dse, rowdf. auto.
    + destruct Hlater as (dse' & rowdf' & Hin & Heq & Hj').
      right. exists dse', rowdf'. auto.
Qed.

End JoinerFacts.

(** ** The callbacks *)

(** C5, the claim on a name with a short form that the table of GVP names
    does not know: the title-cased fallback is used, it is the name of a
    volcano of the eruption table, and the joined frame has a row. *)
Lemma fallback_name_joined :
  gvp_vesuvius !! default "KRAKATAU" (sl_krakatau !! "KRAKATAU") = None
  /\ resolve sl_krakatau gvp_vesuvius "KRAKATAU" = title "KRAKATAU"
  /\ update_joint_chemchart sl_krakatau gvp_vesuvius krakatau_events
       str_int str_cell
       (match_GVPdates_forall_spec krakatau_events) match_GVPdates_not_found
       (Some "KRAKATAU") [krakatau_sample] "all"
     = Ok [ (colsGvp (fill_End_Year
                        (gvp_event "Krakatau" 1883 (Some 5, Some 10))),
             krakatau_sample) ].
Proof. vm_compute. repeat split. Qed.

Section PageFacts.

Variable dict_Georoc_sl : gmap string string.
Variable dict_Georoc_GVP : gmap string string.
Variable df : list Event.
Variable lbls : list string.
Variable str_Start_Year : Z -> string.
Variable str_End_Year : option Z -> string.
Variable match_GVPdates_forall : string -> string -> list (Z * (string * string)).
Variable match_GVPdates : string -> string -> string -> string * string.
Variable update_chronogram : list string -> string -> list Trace.

Lemma has_gvp_match_false raw :
  dict_Georoc_sl !! raw = None ->
  dict_Georoc_GVP !! raw = None ->
  has_gvp_match dict_Georoc_sl dict_Georoc_GVP raw = false.
Proof.
  intros Hsl Hgvp. unfold has_gvp_match. rewrite Hsl, Hgvp.
  apply orb_false_iff. split; apply bool_decide_eq_false; intros [? ?];
    discriminate.
Qed.

(** C5, as the code has it.  For a raw name that is a key of neither alias
    table the joined frame is empty, whatever the sample frame, the date
    selector and the answers of the date matcher. *)
Theorem unmatched_name_joins_nothing raw thisdf thisdate :
  dict_Georoc_sl !! raw = None ->
  dict_Georoc_GVP !! raw = None ->
  update_joint_chemchart dict_Georoc_sl dict_Georoc_GVP df
    str_Start_Year str_End_Year match_GVPdates_forall match_GVPdates
    (Some raw) thisdf thisdate
  = Ok [].
Proof.
  intros Hsl Hgvp. unfold update_joint_chemchart.
  destruct (String.eqb raw "start"); [reflexivity |].
  now rewrite (has_gvp_match_false raw Hsl Hgvp).
Qed.

(** C4, as the code has it.  Every sample row of the joined frame is a
    row of the sample frame whose year is the year of one of the matched
    date pairs, and its month is not null; when the month matching found at
    least one combination for that pair, the month is above 0. *)
Theorem joined_sample_month name thisdf thisdate rows (j : Joined) :
  update_joint_chemchart dict_Georoc_sl dict_Georoc_GVP df
    str_Start_Year str_End_Year match_GVPdates_forall match_GVPdates
    name thisdf thisdate
  = Ok rows ->
  In j rows ->
  exists volcano dates gy se,
    name = Some volcano
    /\ all_dates_gvp match_GVPdates_forall match_GVPdates volcano thisdate
         (resolve dict_Georoc_sl dict_Georoc_GVP volcano) = Ok dates
    /\ In (gy, se) dates
    /\ In (snd j) thisdf
    /\ ERUPTION_YEAR (snd j) = Some gy
    /\ exists m,
         ERUPTION_MONTH (snd j) = Some m
         /\ (reconciled
               (date_rows str_Start_Year str_End_Year
                  (volcano_rows df
                     (resolve dict_Georoc_sl dict_Georoc_GVP volcano))
                  se)
               thisdf gy se = true ->
             0 < m).
Proof.
  unfold update_joint_chemchart.
  destruct name as [volcano|]; [| intros [= <-] []].
  destruct (String.eqb volcano "start"); [intros [= <-] [] |].
  destruct (has_gvp_match _ _ volcano); [| intros [= <-] []].
  destruct (all_dates_gvp _ _ volcano thisdate _) as [dates | e] eqn:Hdates;
    cbn; [| discriminate].
  intros Hjoin Hj.
  destruct (join_dates_In _ _ _ _ _ _ _ _ Hjoin Hj)
    as [[] | ([gy se] & rowdf & Hin & Hdse & Hj')].
  destruct (join_dse_sample _ _ _ _ _ _ _ _ Hdse Hj')
    as (Hs & Hy & m & Hm & Hpos).
  exists volcano, dates, gy, se. repeat split; try assumption.
  exists m. split; assumption.
Qed.

(** C10.  For a raw name other than ['start'] that is a key of neither
    alias table, the callback asks for the chronogram of the title-cased
    raw name and the joined frame is empty, whatever the eruption table
    holds for that name. *)
Theorem chronogram_without_join raw dfchem date period_choice addGEOROC :
  raw <> "start" ->
  dict_Georoc_sl !! raw = None ->
  dict_Georoc_GVP !! raw = None ->
  update_charts_rock_vei dict_Georoc_sl dict_Georoc_GVP df lbls
    str_Start_Year str_End_Year match_GVPdates_forall match_GVPdates
    update_chronogram (Some raw) dfchem date period_choice addGEOROC
  = rbind (if (0 <? length addGEOROC)%nat
           then add_chems lbls dfchem
                  (update_chronogram [title raw] period_choice) period_choice
           else Ok (update_chronogram [title raw] period_choice))
          (fun fig2 => Ok {| chronogram_names := Some [title raw];
                             fig2 := fig2; figgvp_df := [] |})
  /\ update_joint_chemchart dict_Georoc_sl dict_Georoc_GVP df
       str_Start_Year str_End_Year match_GVPdates_forall match_GVPdates
       (Some raw) dfchem date
     = Ok [].
Proof.
  intros Hstart Hsl Hgvp.
  apply String.eqb_neq in Hstart.
  assert (Hj : update_joint_chemchart dict_Georoc_sl dict_Georoc_GVP df
                 str_Start_Year str_End_Year match_GVPdates_forall
                 match_GVPdates (Some raw) dfchem date = Ok []).
  { unfold update_joint_chemchart.
    now rewrite Hstart, (has_gvp_match_false raw Hsl Hgvp). }
  split; [| exact Hj].
  unfold update_charts_rock_vei. rewrite Hstart, Hj.
  rewrite (resolve_no_short _ _ _ Hsl), Hgvp. cbn [default].
  now destruct (if (0 <? length addGEOROC)%nat then _ else _).
Qed.

End PageFacts.

(** KRAKATAU with its eruption of 1883 and three samples of that year, of
    month 0, without month and of month 8: the month matching finds month 8
    in the range (5,10), and only that sample is joined. *)
Lemma joined_sample_month_witness :
  let thisdf := [krakatau_sample_month_0;
                 georoc_sample (Some 1883) None None None;
                 krakatau_sample] in
  let j := (colsGvp (fill_End_Year (gvp_event "Krakatau" 1883 (Some 5, Some 10))),
            krakatau_sample) in
  exists volcano dates gy se,
    Some "KRAKATAU" = Some volcano
    /\ all_dates_gvp (match_GVPdates_forall_spec krakatau_events)
         match_GVPdates_not_found volcano "all"
         (resolve ∅ gvp_krakatau volcano) = Ok dates
    /\ In (gy, se) dates
    /\ In (snd j) thisdf
    /\ ERUPTION_YEAR (snd j) = Some gy
    /\ exists m,
         ERUPTION_MONTH (snd j) = Some m
         /\ (reconciled
               (date_rows str_int str_cell
                  (volcano_rows krakatau_events (resolve ∅ gvp_krakatau volcano))
                  se)
               thisdf gy se = true ->
             0 < m).
Proof.
  intros thisdf j.
  apply (joined_sample_month ∅ gvp_krakatau krakatau_events str_int str_cell
           (match_GVPdates_forall_spec krakatau_events) match_GVPdates_not_found
           (Some "KRAKATAU") thisdf "all" [j] j).
  - vm_compute. reflexivity.
  - simpl. left. reflexivity.
Defined.

(** KRAKATAU is a key of neither table: nothing is joined, although the
    eruption table has an eruption of Krakatau in the year of the sample. *)
Lemma unmatched_name_joins_nothing_witness :
  update_joint_chemchart ∅ gvp_vesuvius krakatau_events str_int str_cell
    (match_GVPdates_forall_spec krakatau_events) match_GVPdates_not_found
    (Some "KRAKATAU") [krakatau_sample] "all"
  = Ok [].
Proof.
  apply (unmatched_name_joins_nothing ∅ gvp_vesuvius krakatau_events
           str_int str_cell (match_GVPdates_forall_spec krakatau_events)
           match_GVPdates_not_found "KRAKATAU" [krakatau_sample] "all").
  - reflexivity.
  - vm_compute. reflexivity.
Defined.

(** The chronogram is asked for Krakatau, which has an eruption in the
    table, and the joined frame is empty. *)
Lemma chronogram_without_join_witness :
  (update_charts_rock_vei ∅ gvp_vesuvius krakatau_events ["ANDESITE"]
     str_int str_cell
     (match_GVPdates_forall_spec krakatau_events) match_GVPdates_not_found
     no_chronogram (Some "KRAKATAU") [krakatau_sample] "all"
     period_from_1679 []
   = Ok {| chronogram_names := Some ["Krakatau"]; fig2 := [];
           figgvp_df := [] |}
   /\ update_joint_chemchart ∅ gvp_vesuvius krakatau_events str_int str_cell
        (match_GVPdates_forall_spec krakatau_events) match_GVPdates_not_found
        (Some "KRAKATAU") [krakatau_sample] "all"
      = Ok [])
  /\ volcano_rows krakatau_events "Krakatau" <> [].
Proof.
  split.
  - apply (chronogram_without_join ∅ gvp_vesuvius krakatau_events ["ANDESITE"]
             str_int str_cell (match_GVPdates_forall_spec krakatau_events)
             match_GVPdates_not_found no_chronogram "KRAKATAU"
             [krakatau_sample] "all" period_from_1679 []).
    + intros H. discriminate H.
    + reflexivity.
    + vm_compute. reflexivity.
  - vm_compute. intros H. discriminate H.
Defined.

(** ** Calendar dates *)

Example to_datetime_1883_05_20 :
  to_datetime_row (georoc_sample (Some 1883) (Some 5) (Some 20) None)
  = Ok (XDate 1883 5 20).
Proof. reflexivity. Qed.

Example to_datetime_null_month :
  to_datetime_row (georoc_sample (Some 1883) None (Some 20) None) = Ok XNaT.
Proof. reflexivity. Qed.

Example to_datetime_30_february :
  to_datetime_row sample_30_february = Raise ValueError.
Proof. reflexivity. Qed.

(** C2, the code on the last period with a sample of 1883 whose day is
    -1, and with a sample dated 30 February 1883: the day is not clamped,
    no date can be built from it, and the superimposer raises, and with it
    the callback. *)
Lemma out_of_range_day_raises :
  add_chems ["ANDESITE"] [sample_day_minus_1] [] period_from_1679
  = Raise ValueError
  /\ update_charts_rock_vei ∅ gvp_vesuvius krakatau_events ["ANDESITE"]
       str_int str_cell
       (match_GVPdates_forall_spec krakatau_events) match_GVPdates_not_found
       no_chronogram (Some "VESUVIUS") [sample_day_minus_1] "all"
       period_from_1679 ["GEOROC"]
     = Raise ValueError
  /\ add_chems ["ANDESITE"] [sample_30_february] [] period_from_1679
     = Raise ValueError.
Proof. vm_compute. repeat split. Qed.

(** ** Oxide series *)

Lemma round_half_even_near (v : Q) :
  (Qabs (inject_Z (round_half_even v) - v) <= 1 # 2)%Q.
Proof.
  unfold round_half_even.
  pose proof (Qfloor_le v) as Hlo. pose proof (Qlt_floor v) as Hhi.
  rewrite inject_Z_plus in Hhi. change (inject_Z 1) with 1%Q in Hhi.
  apply Qabs_Qle_condition.
  destruct (Qcompare (v - inject_Z (Qfloor v)) (1 # 2)) eqn:Hc.
  - apply Qeq_alt in Hc. destruct (Z.even (Qfloor v));
      rewrite ?inject_Z_plus; change (inject_Z 1) with 1%Q; split; lra.
  - apply Qlt_alt in Hc. split; lra.
  - apply Qgt_alt in Hc. rewrite inject_Z_plus.
    change (inject_Z 1) with 1%Q. split; lra.
Qed.

(** [round2 x] is a multiple of 0.01 at most 0.005 away from [x]. *)
Lemma round2_near (x : Q) : (Qabs (round2 x - x) <= 1 # 200)%Q.
Proof.
  unfold round2. pose proof (round_half_even_near (x * 100)) as H.
  apply Qabs_Qle_condition in H. apply Qabs_Qle_condition.
  unfold Qdiv. change (/ 100)%Q with (1 # 100)%Q.
  split; lra.
Qed.

Lemma filter_map_comm {A B : Type} (f : B -> bool) (g : A -> B) (l : list A) :
  List.filter f (map g l) = map g (List.filter (fun a => f (g a)) l).
Proof.
  induction l as [|a l IH]; cbn; [reflexivity |].
  destruct (f (g a)); cbn; now rewrite IH.
Qed.

Lemma silica_y_round_oxides s :
  silica_y (round_oxides s)
  = option_map (fun v => ((0 - (4 # 10)) + round2 v / 100)%Q) (SIO2 s).
Proof. unfold silica_y. cbn. now destruct (SIO2 s). Qed.

(** C9, the claim at SiO2 = 62.345.  The value shown is 62.34 and the
    point is drawn at 62.34/100 - 0.4 = 0.2234, not at -0.38: the rounding
    is applied to the weight percent, before the division by 100. *)
Lemma silica_62_345_value :
  exists alkali silica shown q,
    add_chems ["ANDESITE"] [krakatau_sample] [] period_from_1679
    = Ok [alkali; silica]
    /\ SIO2 krakatau_sample = Some (62345 # 1000)%Q
    /\ customdata silica = [[Some shown]] /\ (shown == 6234 # 100)%Q
    /\ y silica = [Some q] /\ (q == 2234 # 10000)%Q
    /\ ~ (q == - (38 # 100))%Q.
Proof.
  do 4 eexists. split; [vm_compute; reflexivity |].
  cbn [customdata y]. repeat split.
  intros H. vm_compute in H. discriminate H.
Qed.

(** C9, as the code has it.  For every rock label the silica trace holds,
    for each sample of the period with that label, the SiO2 weight percent
    rounded to 2 decimals as the value shown and that rounded value
    divided by 100 and offset by -0.4 as the height; the rounding is to a
    nearest multiple of 0.01. *)
Theorem silica_series_rounded_first (thisperiod : string)
    (thisdf : list Sample) (lbl : string) :
  let rows := List.filter (fun s => String.eqb (color s) lbl)
                          (period_rows thisperiod thisdf) in
  label_traces thisperiod (chem_rows thisperiod thisdf) lbl
  = rbind (xdate thisperiod (map round_oxides rows)) (fun xd =>
      Ok [ {| name := "NA2O+K2O"; x := xd;
              customdata := map (fun s => [NA2O s; K2O s])
                                (map round_oxides rows);
              y := map alkali_y (map round_oxides rows) |};
           {| name := "SIO2"; x := xd;
              customdata := map (fun s => [option_map round2 (SIO2 s)]) rows;
              y := map (fun s =>
                          option_map
                            (fun v => ((0 - (4 # 10)) + round2 v / 100)%Q)
                            (SIO2 s)) rows |} ])
  /\ forall v, (Qabs (round2 v - v) <= 1 # 200)%Q.
Proof.
  intros rows. split; [| apply round2_near].
  unfold label_traces, chem_rows. rewrite filter_map_comm.
  change (List.filter _ (period_rows thisperiod thisdf)) with rows.
  rewrite !map_map.
  rewrite (map_ext _ _ silica_y_round_oxides).
  reflexivity.
Qed.

(** ** Frames are not written through *)

Section FrameSafety.

Variable D : gset nat.

Lemma frame_safe_ret {A : Type} (P : A -> Prop) (a : A) :
  P a -> frame_safe D P (ret a).
Proof. intros Ha st Hst. cbn. auto. Qed.

Lemma frame_safe_lift {A : Type} (r : result A) :
  frame_safe D (fun _ => True) (lift r).
Proof. intros st Hst. cbn. repeat split; [assumption |]. now destruct r. Qed.

Lemma frame_safe_bind {A B : Type} (P : A -> Prop) (Q : B -> Prop)
    (m : M A) (k : A -> M B) :
  frame_safe D P m ->
  (forall a, P a -> frame_safe D Q (k a)) ->
  frame_safe D Q (bind m k).
Proof.
  intros Hm Hk st Hst. unfold bind.
  destruct (Hm st Hst) as (Hdom & Hkeep & Hval).
  destruct (m st) as [[a | e] st']; cbn in *.
  - destruct (Hk a Hval st' Hdom) as (Hdom' & Hkeep' & Hval').
    repeat split; [assumption | | assumption].
    intros r Hr. now rewrite Hkeep', Hkeep.
  - auto.
Qed.

(** A new frame gets a reference outside [D]. *)
Lemma frame_safe_new_frame (f : frame) :
  frame_safe D (fun r => r ∉ D) (new_frame f).
Proof.
  intros st Hst. unfold new_frame. cbn.
  pose proof (is_fresh (dom st)) as Hfresh.
  repeat split.
  - rewrite dom_insert_L. set_solver.
  - intros r Hr. apply lookup_insert_ne. set_solver.
  - set_solver.
Qed.

(** Writing to a reference outside [D]. *)
Lemma frame_safe_assign (r : nat) (f : frame) :
  r ∉ D -> frame_safe D (fun _ => True) (assign r f).
Proof.
  intros Hr st Hst. unfold assign. cbn. repeat split.
  - rewrite dom_insert_L. set_solver.
  - intros r' Hr'. apply lookup_insert_ne. set_solver.
Qed.

Lemma frame_safe_events (r : nat) : frame_safe D (fun _ => True) (events r).
Proof.
  intros st Hst. unfold events.
  destruct (st !! r) as [[rows | rows] |]; cbn; auto.
Qed.

Lemma frame_safe_samples (r : nat) : frame_safe D (fun _ => True) (samples r).
Proof.
  intros st Hst. unfold samples.
  destruct (st !! r) as [[rows | rows] |]; cbn; auto.
Qed.

Lemma frame_safe_getitem_events mask r :
  frame_safe D (fun r' => r' ∉ D) (getitem_events mask r).
Proof.
  unfold getitem_events. eapply frame_safe_bind; [apply frame_safe_events |].
  intros rows _. apply frame_safe_new_frame.
Qed.

Lemma frame_safe_getitem_samples mask r :
  frame_safe D (fun r' => r' ∉ D) (getitem_samples mask r).
Proof.
  unfold getitem_samples. eapply frame_safe_bind; [apply frame_safe_samples |].
  intros rows _. apply frame_safe_new_frame.
Qed.

Lemma frame_safe_rename r : frame_safe D (fun r' => r' ∉ D) (rename r).
Proof.
  unfold rename. eapply frame_safe_bind; [apply frame_safe_samples |].
  intros rows _. apply frame_safe_new_frame.
Qed.

Lemma frame_safe_setitem_events f r :
  r ∉ D -> frame_safe D (fun _ => True) (setitem_events f r).
Proof.
  intros Hr. unfold setitem_events.
  eapply frame_safe_bind; [apply frame_safe_events |].
  intros rows _. now apply frame_safe_assign.
Qed.

Lemma frame_safe_setitem_samples f r :
  r ∉ D -> frame_safe D (fun _ => True) (setitem_samples f r).
Proof.
  intros Hr. unfold setitem_samples.
  eapply frame_safe_bind; [apply frame_safe_samples |].
  intros rows _. now apply frame_safe_assign.
Qed.

End FrameSafety.

Lemma bind_run {A B : Type} (m : M A) (k : A -> M B) st a st' :
  m st = (Ok a, st') -> bind m k st = k a st'.
Proof. intros H. unfold bind. now rewrite H. Qed.

Lemma events_run r st rows :
  st !! r = Some (EventFrame rows) -> events r st = (Ok rows, st).
Proof. intros H. unfold events. now rewrite H. Qed.

Lemma samples_run r st rows :
  st !! r = Some (SampleFrame rows) -> samples r st = (Ok rows, st).
Proof. intros H. unfold samples. now rewrite H. Qed.

Lemma getitem_events_run mask r st rows :
  st !! r = Some (EventFrame rows) ->
  getitem_events mask r st
  = (Ok (fresh (dom st)),
     <[fresh (dom st) := EventFrame (List.filter mask rows)]> st).
Proof.
  intros H. unfold getitem_events.
  now rewrite (bind_run _ _ _ _ _ (events_run _ _ _ H)).
Qed.

Lemma getitem_samples_run mask r st rows :
  st !! r = Some (SampleFrame rows) ->
  getitem_samples mask r st
  = (Ok (fresh (dom st)),
     <[fresh (dom st) := SampleFrame (List.filter mask rows)]> st).
Proof.
  intros H. unfold getitem_samples.
  now rewrite (bind_run _ _ _ _ _ (samples_run _ _ _ H)).
Qed.

Lemma rename_run r st rows :
  st !! r = Some (SampleFrame rows) ->
  rename r st
  = (Ok (fresh (dom st)), <[fresh (dom st) := SampleFrame rows]> st).
Proof.
  intros H. unfold rename.
  now rewrite (bind_run _ _ _ _ _ (samples_run _ _ _ H)).
Qed.

Lemma setitem_events_run f r st rows :
  st !! r = Some (EventFrame rows) ->
  setitem_events f r st = (Ok tt, <[r := EventFrame (map f rows)]> st).
Proof.
  intros H. unfold setitem_events.
  now rewrite (bind_run _ _ _ _ _ (events_run _ _ _ H)).
Qed.

Lemma setitem_samples_run f r st rows :
  st !! r = Some (SampleFrame rows) ->
  setitem_samples f r st = (Ok tt, <[r := SampleFrame (map f rows)]> st).
Proof.
  intros H. unfold setitem_samples.
  now rewrite (bind_run _ _ _ _ _ (samples_run _ _ _ H)).
Qed.

Lemma lookup_fresh_ne (st : gmap nat frame) r f :
  st !! r = Some f -> fresh (dom st) <> r.
Proof.
  intros H Heq. apply (is_fresh (dom st)). rewrite Heq.
  apply elem_of_dom. now exists f.
Qed.

Section StoreFacts.

Variable dict_Georoc_sl : gmap string string.
Variable dict_Georoc_GVP : gmap string string.
Variable lbls : list string.
Variable str_Start_Year : Z -> string.
Variable str_End_Year : option Z -> string.
Variable match_GVPdates_forall : string -> string -> list (Z * (string * string)).
Variable match_GVPdates : string -> string -> string -> string * string.

Lemma update_joint_chemchart_st_safe D df_ref thisdf_ref name date :
  frame_safe D (fun _ => True)
    (update_joint_chemchart_st dict_Georoc_sl dict_Georoc_GVP
       str_Start_Year str_End_Year match_GVPdates_forall match_GVPdates
       df_ref thisdf_ref name date).
Proof.
  unfold update_joint_chemchart_st.
  destruct name as [volcano|]; [| now apply frame_safe_ret].
  destruct (String.eqb volcano "start"); [now apply frame_safe_ret |].
  destruct (has_gvp_match _ _ volcano); [| now apply frame_safe_ret].
  eapply frame_safe_bind; [apply frame_safe_getitem_events |].
  intros dfmatchv Hnew.
  eapply frame_safe_bind; [apply frame_safe_events |]. intros rows _.
  apply (frame_safe_bind D (fun _ => True)).
  { destruct (0 <? length rows)%nat;
      [now apply frame_safe_setitem_events | now apply frame_safe_ret]. }
  intros _ _.
  eapply frame_safe_bind; [apply frame_safe_lift |]. intros dates _.
  eapply frame_safe_bind; [apply frame_safe_events |]. intros rows' _.
  eapply frame_safe_bind; [apply frame_safe_samples |]. intros thisdf _.
  apply frame_safe_lift.
Qed.

Lemma add_chems_st_safe D thisdf_ref thisfig thisperiod :
  frame_safe D (fun _ => True) (add_chems_st lbls thisdf_ref thisfig thisperiod).
Proof.
  unfold add_chems_st.
  apply (frame_safe_bind D (fun r => r ∉ D)).
  { destruct (String.eqb thisperiod period_from_1679);
      [| apply frame_safe_getitem_samples].
    eapply frame_safe_bind; [apply frame_safe_getitem_samples |].
    intros r0 _.
    eapply frame_safe_bind; [apply frame_safe_rename |]. intros r Hr.
    do 4 (eapply frame_safe_bind;
          [now apply frame_safe_setitem_samples | intros _ _]).
    now apply frame_safe_ret. }
  intros r Hr.
  do 3 (eapply frame_safe_bind;
        [now apply frame_safe_setitem_samples | intros _ _]).
  eapply frame_safe_bind; [apply frame_safe_samples |]. intros rows _.
  apply frame_safe_lift.
Qed.

(** C8.  Whatever the store holds before a call of the joiner or of the
    superimposer, it holds after it: every frame that existed, the shared
    eruption table and the caller's sample frame among them, has the same
    rows, also when the call raises.  The end years are filled, and the
    months, days and oxides rewritten, in frames the call itself built. *)
Theorem frames_unchanged df_ref thisdf_ref name date thisfig thisperiod
    (st : gmap nat frame) (r : nat) (f : frame) :
  st !! r = Some f ->
  snd (update_joint_chemchart_st dict_Georoc_sl dict_Georoc_GVP
         str_Start_Year str_End_Year match_GVPdates_forall match_GVPdates
         df_ref thisdf_ref name date st) !! r = Some f
  /\ snd (add_chems_st lbls thisdf_ref thisfig thisperiod st) !! r = Some f.
Proof.
  intros Hr.
  assert (Hin : r ∈ dom st) by (apply elem_of_dom; now exists f).
  split.
  - destruct (update_joint_chemchart_st_safe (dom st) df_ref thisdf_ref
                name date st) as (_ & Hkeep & _); [done |].
    now rewrite Hkeep.
  - destruct (add_chems_st_safe (dom st) thisdf_ref thisfig thisperiod st)
      as (_ & Hkeep & _); [done |].
    now rewrite Hkeep.
Qed.

End StoreFacts.

Section StoreValues.

Variable dict_Georoc_sl : gmap string string.
Variable dict_Georoc_GVP : gmap string string.
Variable lbls : list string.
Variable str_Start_Year : Z -> string.
Variable str_End_Year : option Z -> string.
Variable match_GVPdates_forall : string -> string -> list (Z * (string * string)).
Variable match_GVPdates : string -> string -> string -> string * string.

(** On a store that holds the eruption table and the sample frame, the
    joiner on frame objects returns the frame [update_joint_chemchart]
    computes from their rows. *)
Lemma update_joint_chemchart_st_value st df_ref thisdf_ref df thisdf name date :
  st !! df_ref = Some (EventFrame df) ->
  st !! thisdf_ref = Some (SampleFrame thisdf) ->
  fst (update_joint_chemchart_st dict_Georoc_sl dict_Georoc_GVP
         str_Start_Year str_End_Year match_GVPdates_forall match_GVPdates
         df_ref thisdf_ref name date st)
  = update_joint_chemchart dict_Georoc_sl dict_Georoc_GVP df
      str_Start_Year str_End_Year match_GVPdates_forall match_GVPdates
      name thisdf date.
Proof.
  intros Hdf Hthis.
  unfold update_joint_chemchart_st, update_joint_chemchart.
  destruct name as [volcano|]; [| reflexivity].
  destruct (String.eqb volcano "start"); [reflexivity |].
  destruct (has_gvp_match _ _ volcano); [| reflexivity].
  set (n := resolve dict_Georoc_sl dict_Georoc_GVP volcano).
  set (mask := fun row => String.eqb (Volcano_Name row) n).
  set (r0 := fresh (dom st)).
  assert (Hne : r0 <> thisdf_ref) by (eapply lookup_fresh_ne; eassumption).
  rewrite (bind_run _ _ _ _ _ (getitem_events_run mask _ _ _ Hdf)).
  fold r0. set (st1 := <[r0 := EventFrame (List.filter mask df)]> st).
  assert (H1 : st1 !! r0 = Some (EventFrame (List.filter mask df)))
    by apply lookup_insert_eq.
  rewrite (bind_run _ _ _ _ _ (events_run _ _ _ H1)).
  unfold volcano_rows. fold mask.
  destruct (0 <? length (List.filter mask df))%nat.
  - rewrite (bind_run _ _ _ _ _ (setitem_events_run fill_End_Year _ _ _ H1)).
    set (st2 := <[r0 := _]> st1).
    unfold bind at 1. unfold lift at 1.
    destruct (all_dates_gvp _ _ volcano date n) as [dates | e]; [| reflexivity].
    assert (H2 : st2 !! r0
                 = Some (EventFrame (map fill_End_Year (List.filter mask df))))
      by apply lookup_insert_eq.
    rewrite (bind_run _ _ _ _ _ (events_run _ _ _ H2)).
    assert (H3 : st2 !! thisdf_ref = Some (SampleFrame thisdf)).
    { unfold st2, st1. now rewrite !lookup_insert_ne. }
    rewrite (bind_run _ _ _ _ _ (samples_run _ _ _ H3)).
    reflexivity.
  - unfold bind at 1. unfold ret at 1.
    unfold bind at 1. unfold lift at 1.
    destruct (all_dates_gvp _ _ volcano date n) as [dates | e]; [| reflexivity].
    rewrite (bind_run _ _ _ _ _ (events_run _ _ _ H1)).
    assert (H3 : st1 !! thisdf_ref = Some (SampleFrame thisdf)).
    { unfold st1. now rewrite lookup_insert_ne. }
    rewrite (bind_run _ _ _ _ _ (samples_run _ _ _ H3)).
    reflexivity.
Qed.

(** The same for the superimposer. *)
Lemma add_chems_st_value st thisdf_ref thisdf thisfig thisperiod :
  st !! thisdf_ref = Some (SampleFrame thisdf) ->
  fst (add_chems_st lbls thisdf_ref thisfig thisperiod st)
  = add_chems lbls thisdf thisfig thisperiod.
Proof.
  intros Hthis. unfold add_chems_st, add_chems, chem_rows, period_rows.
  set (rows := List.filter (period_mask thisperiod) thisdf).
  assert (Hround : forall st' r l,
    st' !! r = Some (SampleFrame l) ->
    fst ((let! _ := setitem_samples (set_K2O (option_map round2)) r in
          let! _ := setitem_samples (set_NA2O (option_map round2)) r in
          let! _ := setitem_samples (set_SIO2 (option_map round2)) r in
          let! rows := samples r in
          lift (add_traces thisperiod rows lbls thisfig)) st')
    = add_traces thisperiod (map round_oxides l) lbls thisfig).
  { intros st' r l Hl.
    rewrite (bind_run _ _ _ _ _ (setitem_samples_run _ _ _ _ Hl)).
    rewrite (bind_run _ _ _ _ _
               (setitem_samples_run _ _ _ _ (lookup_insert_eq _ _ _))).
    rewrite (bind_run _ _ _ _ _
               (setitem_samples_run _ _ _ _ (lookup_insert_eq _ _ _))).
    rewrite (bind_run _ _ _ _ _ (samples_run _ _ _ (lookup_insert_eq _ _ _))).
    cbn. now rewrite !map_map. }
  destruct (String.eqb thisperiod period_from_1679).
  - unfold bind at 1.
    rewrite (bind_run _ _ _ _ _ (getitem_samples_run _ _ _ _ Hthis)).
    fold rows.
    rewrite (bind_run _ _ _ _ _ (rename_run _ _ _ (lookup_insert_eq _ _ _))).
    rewrite (bind_run _ _ _ _ _
               (setitem_samples_run _ _ _ _ (lookup_insert_eq _ _ _))).
    do 3 rewrite (bind_run _ _ _ _ _
               (setitem_samples_run _ _ _ _ (lookup_insert_eq _ _ _))).
    unfold ret. rewrite (Hround _ _ _ (lookup_insert_eq _ _ _)).
    now rewrite !map_map.
  - unfold bind at 1.
    rewrite (getitem_samples_run _ _ _ _ Hthis). fold rows.
    apply (Hround _ _ _ (lookup_insert_eq _ _ _)).
Qed.

End StoreValues.

(** The eruption table at 0 and the sample frame at 1 after a call with a
    GVP match and a call for the last period. *)
Lemma frames_unchanged_witness :
  let st := two_frames krakatau_events [sample_day_minus_1] in
  let joiner :=
    update_joint_chemchart_st ∅ gvp_krakatau str_int str_cell
      (match_GVPdates_forall_spec krakatau_events) match_GVPdates_not_found
      0%nat 1%nat (Some "KRAKATAU") "all" in
  let superimposer := add_chems_st ["ANDESITE"] 1%nat [] period_from_1679 in
  (snd (joiner st) !! 0%nat = Some (EventFrame krakatau_events)
   /\ snd (superimposer st) !! 0%nat = Some (EventFrame krakatau_events))
  /\ (snd (joiner st) !! 1%nat = Some (SampleFrame [sample_day_minus_1])
      /\ snd (superimposer st) !! 1%nat = Some (SampleFrame [sample_day_minus_1])).
Proof.
  intros st joiner superimposer. split.
  - apply (frames_unchanged ∅ gvp_krakatau ["ANDESITE"] str_int str_cell
             (match_GVPdates_forall_spec krakatau_events)
             match_GVPdates_not_found 0%nat 1%nat (Some "KRAKATAU") "all"
             [] period_from_1679 st 0%nat (EventFrame krakatau_events)).
    vm_compute. reflexivity.
  - apply (frames_unchanged ∅ gvp_krakatau ["ANDESITE"] str_int str_cell
             (match_GVPdates_forall_spec krakatau_events)
             match_GVPdates_not_found 0%nat 1%nat (Some "KRAKATAU") "all"
             [] period_from_1679 st 1%nat (SampleFrame [sample_day_minus_1])).
    vm_compute. reflexivity.
Defined.

(** In the same two calls the filled end year and the clamped month are
    in the frames the calls built, at the references 2 and 3. *)
Example writes_go_to_new_frames :
  let st := two_frames krakatau_events [sample_day_minus_1] in
  snd (update_joint_chemchart_st ∅ gvp_krakatau str_int str_cell
         (match_GVPdates_forall_spec krakatau_events) match_GVPdates_not_found
         0%nat 1%nat (Some "KRAKATAU") "all" st) !! 2%nat
  = Some (EventFrame (map fill_End_Year krakatau_events))
  /\ exists rows,
       snd (add_chems_st ["ANDESITE"] 1%nat [] period_from_1679 st) !! 3%nat
       = Some (SampleFrame rows)
       /\ map (fun s => (ERUPTION_MONTH s, ERUPTION_DAY s)) rows
          = [(Some 1, Some (-1))].
Proof.
  split; [vm_compute; reflexivity |].
  eexists. split; [vm_compute; reflexivity | reflexivity].
Qed.

(** * Further properties of the superimposer *)

Lemma days_in_month_bounds y m : 28 <= days_in_month y m <= 31.
Proof.
  unfold days_in_month. destruct m as [|p|p]; try lia.
  do 4 (try destruct p as [p|p|]; cbn; try lia);
    destruct (is_leap y); lia.
Qed.

(** The digits of [year * 10000 + month * 100 + day] read back as the
    three fields. *)
Lemma ymd_digits y m d :
  0 <= y -> 1 <= m <= 12 -> 1 <= d <= 31 ->
  (y * 10000 + m * 100 + d) / 10000 = y
  /\ ((y * 10000 + m * 100 + d) / 100) mod 100 = m
  /\ (y * 10000 + m * 100 + d) mod 100 = d.
Proof.
  intros Hy Hm Hd.
  assert (H1 : (y * 10000 + m * 100 + d) / 10000 = y).
  { symmetry. apply (Z.div_unique _ _ y (m * 100 + d)); lia. }
  assert (H2 : (y * 10000 + m * 100 + d) / 100 = y * 100 + m).
  { symmetry. apply (Z.div_unique _ _ (y * 100 + m) d); lia. }
  repeat split.
  - exact H1.
  - rewrite H2. symmetry. apply (Z.mod_unique _ _ y m); lia.
  - symmetry. apply (Z.mod_unique _ _ (y * 100 + m) d); lia.
Qed.

Lemma to_datetime_row_valid s y m d :
  ERUPTION_YEAR s = Some y -> ERUPTION_MONTH s = Some m ->
  ERUPTION_DAY s = Some d ->
  1679 <= y <= 2261 -> 1 <= m <= 12 -> 1 <= d <= days_in_month y m ->
  to_datetime_row s = Ok (XDate y m d).
Proof.
  intros Hy Hm Hd Hyr Hmr Hdr. unfold to_datetime_row. rewrite Hy, Hm, Hd.
  pose proof (days_in_month_bounds y m) as Hdim.
  destruct (ymd_digits y m d) as (E1 & E2 & E3); [lia | lia | lia |].
  cbv zeta. rewrite E1, E2, E3.
  unfold valid_date, in_timestamp_range.
  replace (0 <=? y * 10000 + m * 100 + d) with true
    by (symmetry; apply Z.leb_le; lia).
  replace (1 <=? m) with true by (symmetry; apply Z.leb_le; lia).
  replace (m <=? 12) with true by (symmetry; apply Z.leb_le; lia).
  replace (1 <=? d) with true by (symmetry; apply Z.leb_le; lia).
  replace (d <=? days_in_month y m) with true by (symmetry; apply Z.leb_le; lia).
  replace (16770922 <=? y * 10000 + m * 100 + d) with true
    by (symmetry; apply Z.leb_le; lia).
  replace (y * 10000 + m * 100 + d <=? 22620411) with true
    by (symmetry; apply Z.leb_le; lia).
  reflexivity.
Qed.

Lemma clamped_month_range m : 1 <= clamped_month m <= 12.
Proof.
  unfold clamped_month.
  destruct (Z.leb_spec 1 m), (Z.leb_spec m 12); cbn; lia.
Qed.

Lemma clamped_day_range d : 1 <= clamped_day d <= 31.
Proof.
  unfold clamped_day.
  destruct (Z.leb_spec 1 d), (Z.leb_spec d 31); cbn; lia.
Qed.

Lemma clamp_month_clamped m : clamp_month (Some m) = Some (clamped_month m).
Proof. apply clamp_month_spec. Qed.

Lemma clamp_day_clamped d : 0 <= d -> clamp_day (Some d) = Some (clamped_day d).
Proof. apply clamp_day_spec. Qed.

(** X1.  For a sample of 1679 to 2261 whose day is not negative and whose
    clamped day exists in its clamped month, the date drawn is the year
    with the clamped month and the clamped day. *)
Theorem clamped_sample_date s y m d :
  ERUPTION_YEAR s = Some y -> ERUPTION_MONTH s = Some m ->
  ERUPTION_DAY s = Some d ->
  1679 <= y <= 2261 -> 0 <= d ->
  clamped_day d <= days_in_month y (clamped_month m) ->
  xdate period_from_1679 (chem_rows period_from_1679 [s])
  = Ok [XDate y (clamped_month m) (clamped_day d)].
Proof.
  intros Hy Hm Hd Hyr Hd0 Hdim.
  assert (Hrows : chem_rows period_from_1679 [s]
                  = [round_oxides (clamp_row s)]).
  { unfold chem_rows, period_rows. cbn [List.filter].
    rewrite period_mask_from_1679, Hy. unfold fge.
    replace (1679 <=? y) with true by (symmetry; apply Z.leb_le; lia).
    reflexivity. }
  rewrite Hrows.
  change (xdate period_from_1679 [round_oxides (clamp_row s)])
    with (rbind (to_datetime_row (round_oxides (clamp_row s)))
                (fun x => Ok [x])).
  rewrite (to_datetime_row_valid (round_oxides (clamp_row s)) y
             (clamped_month m) (clamped_day d)).
  - reflexivity.
  - exact Hy.
  - cbn. rewrite Hm. apply clamp_month_clamped.
  - cbn. rewrite Hd. now apply clamp_day_clamped.
  - exact Hyr.
  - apply clamped_month_range.
  - pose proof (clamped_day_range d). lia.
Qed.

Lemma clamped_sample_date_witness :
  xdate period_from_1679
    (chem_rows period_from_1679
       [georoc_sample (Some 1883) (Some 13) (Some 0) None])
  = Ok [XDate 1883 1 1].
Proof.
  apply (clamped_sample_date
           (georoc_sample (Some 1883) (Some 13) (Some 0) None) 1883 13 0).
  - reflexivity.
  - reflexivity.
  - reflexivity.
  - lia.
  - lia.
  - vm_compute. intros H. discriminate H.
Defined.

Lemma to_datetime_length l : forall xs,
  to_datetime l = Ok xs -> length xs = length l.
Proof.
  induction l as [|s l IH]; cbn; intros xs.
  - now intros [= <-].
  - destruct (to_datetime_row s) as [x0|e]; cbn; [| discriminate].
    destruct (to_datetime l) as [xs0|e]; cbn; [| discriminate].
    intros [= <-]. cbn. now rewrite (IH xs0).
Qed.

Lemma to_datetime_all_ok l :
  (forall s, In s l -> exists x0, to_datetime_row s = Ok x0) ->
  exists xs, to_datetime l = Ok xs.
Proof.
  induction l as [|s l IH]; cbn; intros H.
  - now exists [].
  - destruct (H s) as [x0 Hx0]; [now left |]. rewrite Hx0. cbn.
    destruct IH as [xs Hxs]; [intros s' Hs'; apply H; now right |].
    rewrite Hxs. cbn. now exists (x0 :: xs).
Qed.

Lemma xdate_length thisperiod dffc xd :
  xdate thisperiod dffc = Ok xd -> length xd = length dffc.
Proof.
  unfold xdate. destruct (String.eqb thisperiod period_from_1679).
  - apply to_datetime_length.
  - intros [= <-]. apply length_map.
Qed.

Lemma xdate_other_periods thisperiod dffc :
  thisperiod <> period_from_1679 ->
  xdate thisperiod dffc = Ok (map (fun s => XYear (ERUPTION_YEAR s)) dffc).
Proof.
  intros H. unfold xdate. apply String.eqb_neq in H. now rewrite H.
Qed.

(** When the x values of every label can be built, the loop appends two
    traces per label behind the traces of the figure. *)
Lemma add_traces_ok thisperiod thisdf :
  (forall lbl, exists xd,
     xdate thisperiod
       (List.filter (fun s => String.eqb (color s) lbl) thisdf) = Ok xd) ->
  forall lbls thisfig, exists traces,
    add_traces thisperiod thisdf lbls thisfig = Ok (thisfig ++ traces)%list
    /\ length traces = (2 * length lbls)%nat.
Proof.
  intros Hx lbls. induction lbls as [|lbl rest IH]; intros thisfig; cbn.
  - exists []. now rewrite app_nil_r.
  - unfold label_traces. destruct (Hx lbl) as [xd Hxd]. rewrite Hxd.
    cbn [rbind].
    match goal with
    | |- context [add_traces _ _ rest (thisfig ++ ?ts)%list] =>
        destruct (IH (thisfig ++ ts)%list) as (traces & Heq & Hlen);
        exists (ts ++ traces)%list
    end.
    rewrite Heq, <- app_assoc. split; [reflexivity |].
    rewrite length_app, Hlen. cbn. lia.
Qed.

Lemma In_chem_rows thisperiod thisdf s' :
  In s' (chem_rows thisperiod thisdf) ->
  exists s, In s thisdf /\ period_mask thisperiod s = true
            /\ s' = round_oxides (if String.eqb thisperiod period_from_1679
                                  then clamp_row s else s).
Proof.
  unfold chem_rows, period_rows. intros H.
  apply in_map_iff in H as (s1 & <- & H).
  destruct (String.eqb thisperiod period_from_1679).
  - apply in_map_iff in H as (s & <- & H). apply filter_In in H as [H1 H2].
    now exists s.
  - apply filter_In in H as [H1 H2]. now exists s1.
Qed.

Lemma datable_row s :
  datable s = true -> fge (ERUPTION_YEAR s) 1679 = true ->
  exists x0, to_datetime_row (round_oxides (clamp_row s)) = Ok x0.
Proof.
  unfold datable, fge. intros Hd Hy.
  destruct (ERUPTION_YEAR s) as [y|] eqn:Ey; [| discriminate].
  apply Z.leb_le in Hy.
  destruct (ERUPTION_MONTH s) as [m|] eqn:Em.
  - destruct (ERUPTION_DAY s) as [d|] eqn:Ed.
    + apply orb_true_iff in Hd as [Hd | Hd]; [apply Z.ltb_lt in Hd; lia |].
      apply andb_true_iff in Hd as [Hd Hdim].
      apply andb_true_iff in Hd as [Hyr Hd0].
      apply Z.leb_le in Hdim, Hyr, Hd0.
      exists (XDate y (clamped_month m) (clamped_day d)).
      apply to_datetime_row_valid.
      * exact Ey.
      * cbn. rewrite Em. apply clamp_month_clamped.
      * cbn. rewrite Ed. now apply clamp_day_clamped.
      * lia.
      * apply clamped_month_range.
      * pose proof (clamped_day_range d). lia.
    + exists XNaT. unfold to_datetime_row. cbn. rewrite Ey, Em, Ed. cbn.
      now destruct (where_lt 1 (where_gt 12 (Some m))).
  - exists XNaT. unfold to_datetime_row. cbn. rewrite Ey, Em. reflexivity.
Qed.

(** X2.  For the period BC and the period before 1679 (for every period
    value other than ['1679 and after']) the superimposer raises on no
    sample frame: it returns the traces of the figure it was given, in
    their order, followed by two new traces for each rock label. *)
Theorem add_chems_other_periods lbls thisdf thisfig thisperiod :
  thisperiod <> period_from_1679 ->
  exists traces,
    add_chems lbls thisdf thisfig thisperiod = Ok (thisfig ++ traces)%list
    /\ length traces = (2 * length lbls)%nat.
Proof.
  intros Hp. unfold add_chems. apply add_traces_ok.
  intros lbl. eexists. now apply xdate_other_periods.
Qed.

Lemma add_chems_other_periods_witness :
  exists traces,
    add_chems ["BASALT"; "ANDESITE"] [sample_day_minus_1; sample_of_year_0] []
      period_BC
    = Ok ([] ++ traces)%list
    /\ length traces = (2 * length ["BASALT"; "ANDESITE"])%nat.
Proof.
  apply (add_chems_other_periods ["BASALT"; "ANDESITE"]
           [sample_day_minus_1; sample_of_year_0] [] period_BC).
  intros H. discriminate H.
Defined.

(** X3.  For the period ['1679 and after'] the superimposer returns, with
    two new traces for each rock label behind the traces it was given, as
    soon as every sample of the frame is datable: a calendar field is
    null, or the year is before 1679, or the year is at most 2261, the day
    is not negative and the clamped day exists in the clamped month. *)
Theorem add_chems_from_1679 lbls thisdf thisfig :
  (forall s, In s thisdf -> datable s = true) ->
  exists traces,
    add_chems lbls thisdf thisfig period_from_1679 = Ok (thisfig ++ traces)%list
    /\ length traces = (2 * length lbls)%nat.
Proof.
  intros Hd. unfold add_chems. apply add_traces_ok. intros lbl.
  unfold xdate. change (String.eqb period_from_1679 period_from_1679) with true.
  cbn iota. apply to_datetime_all_ok. intros s' Hs'.
  apply filter_In in Hs' as [Hs' _].
  apply In_chem_rows in Hs' as (s & Hs & Hmask & ->).
  change (String.eqb period_from_1679 period_from_1679) with true. cbn iota.
  apply datable_row; [now apply Hd |].
  now rewrite <- period_mask_from_1679.
Qed.

Lemma add_chems_from_1679_witness :
  exists traces,
    add_chems ["ANDESITE"]
      [krakatau_sample; georoc_sample (Some 1883) None (Some 40) None;
       sample_of_year_0] [] period_from_1679
    = Ok ([] ++ traces)%list
    /\ length traces = (2 * length ["ANDESITE"])%nat.
Proof.
  apply (add_chems_from_1679 ["ANDESITE"]
           [krakatau_sample; georoc_sample (Some 1883) None (Some 40) None;
            sample_of_year_0] []).
  intros s [<- | [<- | [<- | []]]]; vm_compute; reflexivity.
Defined.

(** X4.  The two traces of a rock label are the alkali trace and the silica
    trace, in that order; they share their x values, and each of them has
    one x value, one height and one hover entry for each sample of the
    label. *)
Theorem label_traces_aligned thisperiod thisdf lbl ts :
  label_traces thisperiod thisdf lbl = Ok ts ->
  exists alkali silica,
    ts = [alkali; silica]
    /\ name alkali = "NA2O+K2O" /\ name silica = "SIO2"
    /\ x alkali = x silica
    /\ let n := length (List.filter (fun s => String.eqb (color s) lbl) thisdf) in
       length (x silica) = n
       /\ length (y alkali) = n /\ length (customdata alkali) = n
       /\ length (y silica) = n /\ length (customdata silica) = n.
Proof.
  unfold label_traces.
  destruct (xdate thisperiod _) as [xd|e] eqn:Hxd; cbn; [| discriminate].
  intros [= <-]. do 2 eexists. split; [reflexivity |]. cbn.
  rewrite !length_map. apply xdate_length in Hxd. auto 10.
Qed.

Lemma label_traces_aligned_witness :
  exists ts alkali silica,
    label_traces period_from_1679
      (chem_rows period_from_1679 [krakatau_sample; sample_of_year_0])
      "ANDESITE" = Ok ts
    /\ ts = [alkali; silica]
    /\ length (x silica) = 1%nat /\ length (y silica) = 1%nat.
Proof.
  destruct (label_traces_aligned period_from_1679
              (chem_rows period_from_1679 [krakatau_sample; sample_of_year_0])
              "ANDESITE"
              [ {| name := "NA2O+K2O"; x := [XDate 1883 8 27];
                   customdata := [[Some (381 # 100)%Q; Some (152 # 100)%Q]];
                   y := [Some (((0 - (4 # 10)) + ((152 # 100) + (381 # 100)) / 100))%Q] |};
                {| name := "SIO2"; x := [XDate 1883 8 27];
                   customdata := [[Some (6234 # 100)%Q]];
                   y := [Some ((0 - (4 # 10)) + (6234 # 100) / 100)%Q] |} ])
    as (alkali & silica & Hts & _ & _ & _ & Hx & _ & _ & Hy & _).
  - vm_compute. reflexivity.
  - do 3 eexists. split; [vm_compute; reflexivity |].
    split; [exact Hts |]. split; [exact Hx | exact Hy].
Defined.

(** X5.  The clamps of the last period drop no row: the frame has one row
    for each sample of 1679 or later.  Each row has a year of 1679 or
    later, a month that is null or within 1..12, and a day that is null or
    at most 31 and other than 0. *)
Theorem from_1679_rows_clamped (thisdf : list Sample) :
  length (period_rows period_from_1679 thisdf)
  = length (List.filter (fun s => fge (ERUPTION_YEAR s) 1679) thisdf)
  /\ Forall (fun s' =>
       (exists year, ERUPTION_YEAR s' = Some year /\ 1679 <= year)
       /\ (forall m, ERUPTION_MONTH s' = Some m -> 1 <= m <= 12)
       /\ (forall d, ERUPTION_DAY s' = Some d -> d <> 0 /\ d <= 31))
     (period_rows period_from_1679 thisdf).
Proof.
  unfold period_rows.
  change (String.eqb period_from_1679 period_from_1679) with true. cbn iota.
  split; [now rewrite length_map |].
  apply Forall_forall. intros s' Hs'. apply list_elem_of_In in Hs'.
  apply in_map_iff in Hs' as (s & <- & Hs). apply filter_In in Hs as [_ Hmask].
  rewrite period_mask_from_1679 in Hmask. repeat split.
  - change (ERUPTION_YEAR (clamp_row s)) with (ERUPTION_YEAR s).
    unfold fge in Hmask. destruct (ERUPTION_YEAR s) as [year|]; [| discriminate].
    exists year. split; [reflexivity | now apply Z.leb_le].
  - rewrite clamp_row_month in H.
    destruct (ERUPTION_MONTH s) as [m0|]; [| discriminate].
    rewrite clamp_month_clamped in H. injection H as <-.
    apply clamped_month_range.
  - rewrite clamp_row_month in H.
    destruct (ERUPTION_MONTH s) as [m0|]; [| discriminate].
    rewrite clamp_month_clamped in H. injection H as <-.
    apply clamped_month_range.
  - rewrite clamp_row_day in H.
    destruct (ERUPTION_DAY s) as [d0|]; [| discriminate].
    destruct (Z.lt_ge_cases d0 0) as [Hneg | Hpos].
    + rewrite (clamp_day_negative _ Hneg) in H. injection H as <-. lia.
    + rewrite (clamp_day_clamped _ Hpos) in H. injection H as <-.
      pose proof (clamped_day_range d0). lia.
  - rewrite clamp_row_day in H.
    destruct (ERUPTION_DAY s) as [d0|]; [| discriminate].
    destruct (Z.lt_ge_cases d0 0) as [Hneg | Hpos].
    + rewrite (clamp_day_negative _ Hneg) in H. injection H as <-. lia.
    + rewrite (clamp_day_clamped _ Hpos) in H. injection H as <-.
      pose proof (clamped_day_range d0). lia.
Qed.

(** * Further properties of the record joiner *)

Lemma found_range_has_row dfmatch gm y x :
  In (y, x) (found_months (gvp_months dfmatch) gm) ->
  exists row, In row dfmatch /\ month_range row = x.
Proof.
  intros H. apply In_found_months in H as (Hx & _).
  now apply In_gvp_months in Hx as (Hrow & _).
Qed.

(** The month filter of line 380 never removes every row. *)
Lemma month_rows_nonempty dfmatch thisdf gy se :
  reconciled dfmatch thisdf gy se = true ->
  let fnd := found_months (gvp_months dfmatch) (georoc_months thisdf gy) in
  month_rows (map (fun x => fst (snd x)) fnd)
             (map (fun x => snd (snd x)) fnd) dfmatch <> [].
Proof.
  unfold reconciled. intros H. cbv zeta in *.
  apply andb_true_iff in H as [_ H].
  destruct (found_months (gvp_months dfmatch) (georoc_months thisdf gy))
    as [|[y x] rest] eqn:Hfnd; [discriminate |].
  assert (Hin : In (y, x) (found_months (gvp_months dfmatch)
                                        (georoc_months thisdf gy)))
    by (rewrite Hfnd; now left).
  destruct (found_range_has_row _ _ _ _ Hin) as (row & Hrow & Hx).
  subst x. pose proof (month_rows_keeps_found _ _ _ _ Hrow Hin) as Hkept.
  cbv zeta in Hkept. rewrite Hfnd in Hkept.
  intros Hnil. rewrite Hnil in Hkept. contradiction.
Qed.

Lemma reconcile_rows_incl dfmatch thisdf gy se row :
  In row (fst (reconcile dfmatch thisdf gy se)) -> In row dfmatch.
Proof.
  rewrite reconcile_eq. destruct (reconciled dfmatch thisdf gy se); cbn.
  - unfold month_rows. intros H. now apply filter_In in H.
  - trivial.
Qed.

Lemma reconcile_rows_nonempty dfmatch thisdf gy se :
  dfmatch <> [] -> fst (reconcile dfmatch thisdf gy se) <> [].
Proof.
  intros Hne. rewrite reconcile_eq.
  destruct (reconciled dfmatch thisdf gy se) eqn:Hrec; cbn.
  - now apply (month_rows_nonempty dfmatch thisdf gy se).
  - exact Hne.
Qed.

Lemma map_snd_pair {A B : Type} (a : A) (l : list B) :
  map snd (map (fun b => (a, b)) l) = l.
Proof. rewrite map_map. cbn. apply map_id. Qed.

Section JoinerMore.

Variable str_Start_Year : Z -> string.
Variable str_End_Year : option Z -> string.

(** The shape of what one date pair adds: the first remaining event row,
    paired with the selected samples. *)
Lemma join_dse_shape dfmatchv thisdf gy se :
  let dfmatch := date_rows str_Start_Year str_End_Year dfmatchv se in
  dfmatch <> [] ->
  exists row,
    In row dfmatch
    /\ join_dse str_Start_Year str_End_Year dfmatchv thisdf (gy, se)
       = Ok (map (fun rw => (colsGvp row, rw))
                 (rows_georoc thisdf gy (snd (reconcile dfmatch thisdf gy se)))).
Proof.
  intros dfmatch Hne. unfold join_dse. cbn [fst snd]. fold dfmatch.
  pose proof (reconcile_rows_nonempty dfmatch thisdf gy se Hne) as Hne'.
  pose proof (reconcile_rows_incl dfmatch thisdf gy se) as Hincl.
  destruct (reconcile dfmatch thisdf gy se) as [[|row rest] gm]; cbn in *.
  - contradiction.
  - exists row. split; [apply Hincl; now left | reflexivity].
Qed.

(** X7.  The join of one date pair returns exactly when an event row of
    the volcano carries the start and end strings of the pair: the month
    filter never removes the last row. *)
Theorem join_dse_returns_iff dfmatchv thisdf gy se :
  (exists rows,
     join_dse str_Start_Year str_End_Year dfmatchv thisdf (gy, se) = Ok rows)
  <-> date_rows str_Start_Year str_End_Year dfmatchv se <> [].
Proof.
  split.
  - intros [rows Hrows] Hnil.
    rewrite (join_dse_no_event_row _ _ _ _ _ _ Hnil) in Hrows. discriminate.
  - intros Hne. destruct (join_dse_shape dfmatchv thisdf gy se Hne)
      as (row & _ & Heq).
    eexists. exact Heq.
Qed.

(** X8.  When the month matching is not attempted or finds nothing, a date
    pair adds one row for every sample of its year whose month is not
    null, in the order of the sample frame, each with the first event row
    of the pair; the samples of the year without a month are left out. *)
Theorem fallback_joins_whole_year dfmatchv thisdf gy se row rest :
  date_rows str_Start_Year str_End_Year dfmatchv se = row :: rest ->
  reconciled (row :: rest) thisdf gy se = false ->
  join_dse str_Start_Year str_End_Year dfmatchv thisdf (gy, se)
  = Ok (map (fun rw => (colsGvp row, rw))
            (List.filter
               (fun s => year_is gy s && notnan (ERUPTION_MONTH s)) thisdf)).
Proof.
  intros Hrows Hrec. unfold join_dse. cbn [fst snd]. rewrite Hrows.
  destruct (reconcile_fallback _ _ _ _ Hrec) as [Heq Hall].
  rewrite Heq in Hall |- *. cbn [snd] in Hall. now rewrite Hall.
Qed.

(** X9.  When the month matching finds a combination, the samples a date
    pair joins are exactly the samples of its year whose month lies in the
    month range of one of its event rows, the ranges with a null or
    non-positive bound left aside. *)
Theorem reconciled_samples_in_range dfmatchv thisdf gy se rows s :
  reconciled (date_rows str_Start_Year str_End_Year dfmatchv se)
    thisdf gy se = true ->
  join_dse str_Start_Year str_End_Year dfmatchv thisdf (gy, se) = Ok rows ->
  In s (map snd rows)
  <-> In s thisdf
      /\ ERUPTION_YEAR s = Some gy
      /\ exists row a b m,
           In row (date_rows str_Start_Year str_End_Year dfmatchv se)
           /\ Start_Month row = Some a /\ End_Month row = Some b
           /\ 0 < a /\ 0 < b
           /\ ERUPTION_MONTH s = Some m /\ a <= m <= b.
Proof.
  intros Hrec Hjoin.
  set (dfmatch := date_rows str_Start_Year str_End_Year dfmatchv se) in *.
  assert (Hne : dfmatch <> []).
  { intros Hnil. unfold reconciled in Hrec. rewrite Hnil in Hrec.
    apply andb_true_iff in Hrec as [_ Hrec]. discriminate. }
  destruct (join_dse_shape dfmatchv thisdf gy se Hne) as (row0 & _ & Heq).
  fold dfmatch in Heq. rewrite Heq in Hjoin. injection Hjoin as <-.
  rewrite map_snd_pair, reconcile_eq, Hrec. cbn [snd].
  rewrite In_rows_georoc. split.
  - intros (Hs & Hy & _ & Hm). split; [assumption |]. split; [assumption |].
    apply in_map_iff in Hm as ([y x] & Hyx & Hf). cbn in Hyx. subst y.
    pose proof Hf as Hf'. apply In_found_months in Hf' as (Hx & _ & Hlo & Hhi).
    apply In_gvp_months in Hx as ((row & Hrow & Hrange) & Hpa & Hpb).
    subst x. unfold month_range in *. cbn [fst snd] in *.
    destruct (Start_Month row) as [a|] eqn:Ea; [| discriminate].
    destruct (End_Month row) as [b|] eqn:Eb; [| discriminate].
    destruct (ERUPTION_MONTH s) as [m|] eqn:Em; [| discriminate].
    cbn in Hpa, Hpb, Hlo, Hhi.
    apply Z.ltb_lt in Hpa, Hpb. apply Z.leb_le in Hlo, Hhi.
    exists row, a, b, m. auto 10.
  - intros (Hs & Hy & row & a & b & m & Hrow & Ea & Eb & Ha & Hb & Em & Hm).
    split; [assumption |]. split; [assumption |].
    split; [now rewrite Em |].
    apply in_map_iff. exists (Some m, month_range row). split; [now rewrite Em |].
    apply In_found_months. unfold month_range. rewrite Ea, Eb. cbn [fst snd].
    repeat split.
    + apply In_gvp_months. cbn [fst snd].
      split; [exists row; split;
                [assumption | unfold month_range; now rewrite Ea, Eb] |].
      split; cbn; now apply Z.ltb_lt.
    + apply In_georoc_months. now exists s.
    + cbn. apply Z.leb_le. lia.
    + cbn. apply Z.leb_le. lia.
Qed.

(** A raising date pair makes the loop raise, and the loop raises nothing
    else than the [IndexError] of a pair without event row. *)
Lemma join_dates_raises dfmatchv thisdf dates : forall acc e,
  join_dates str_Start_Year str_End_Year dfmatchv thisdf dates acc = Raise e
  <-> e = IndexError
      /\ exists dse, In dse dates
           /\ date_rows str_Start_Year str_End_Year dfmatchv (snd dse) = [].
Proof.
  induction dates as [|[gy se] rest IH]; intros acc e; cbn [join_dates].
  - split; [discriminate | intros (_ & dse & [] & _)].
  - destruct (date_rows str_Start_Year str_End_Year dfmatchv se) as [|r l] eqn:Hd.
    + rewrite (join_dse_no_event_row _ _ _ _ _ _ Hd). cbn. split.
      * intros [= <-]. split; [reflexivity |]. exists (gy, se). split;
          [now left | exact Hd].
      * intros (-> & _). reflexivity.
    + destruct (join_dse_shape dfmatchv thisdf gy se) as (row & _ & Heq);
        [rewrite Hd; discriminate |].
      rewrite Heq. cbn [rbind]. rewrite IH. split.
      * intros (-> & dse & Hin & Hnil). split; [reflexivity |].
        exists dse. split; [now right | exact Hnil].
      * intros (-> & dse & [<- | Hin] & Hnil).
        -- cbn in Hnil. rewrite Hd in Hnil. discriminate.
        -- split; [reflexivity |]. now exists dse.
Qed.

End JoinerMore.

Lemma In_volcano_rows df n row :
  In row (volcano_rows df n) ->
  exists row0, In row0 df /\ Volcano_Name row0 = n /\ row = fill_End_Year row0.
Proof.
  unfold volcano_rows.
  destruct (0 <? length (List.filter _ df))%nat eqn:Hlen.
  - intros H. apply in_map_iff in H as (row0 & <- & H).
    apply filter_In in H as [H Hn]. apply String.eqb_eq in Hn. now exists row0.
  - apply Nat.ltb_ge in Hlen.
    destruct (List.filter _ df); [intros [] | cbn in Hlen; lia].
Qed.

Lemma before_dash_leading_dash rest : before_dash (String "-" rest) = "".
Proof. reflexivity. Qed.

(** * Further properties of the joiner callback *)

Section PageMore.

Variable dict_Georoc_sl : gmap string string.
Variable dict_Georoc_GVP : gmap string string.
Variable df : list Event.
Variable str_Start_Year : Z -> string.
Variable str_End_Year : option Z -> string.
Variable match_GVPdates_forall : string -> string -> list (Z * (string * string)).
Variable match_GVPdates : string -> string -> string -> string * string.

(** X10.  Every row of the joined frame carries the name, the years and the
    VEI of an eruption that the eruption table lists under the resolved
    name of the volcano, and its end year is never null: a null end year
    of the table is replaced by the start year. *)
Theorem joined_gvp_part name thisdf thisdate rows (j : Joined) :
  update_joint_chemchart dict_Georoc_sl dict_Georoc_GVP df
    str_Start_Year str_End_Year match_GVPdates_forall match_GVPdates
    name thisdf thisdate
  = Ok rows ->
  In j rows ->
  exists volcano row0,
    name = Some volcano
    /\ In row0 df
    /\ Volcano_Name row0 = resolve dict_Georoc_sl dict_Georoc_GVP volcano
    /\ fst j = colsGvp (fill_End_Year row0)
    /\ gvp_End_Year (fst j)
       = Some (default (Start_Year row0) (End_Year row0)).
Proof.
  unfold update_joint_chemchart.
  destruct name as [volcano|]; [| intros [= <-] []].
  destruct (String.eqb volcano "start"); [intros [= <-] [] |].
  destruct (has_gvp_match _ _ volcano); [| intros [= <-] []].
  destruct (all_dates_gvp _ _ volcano thisdate _) as [dates | e];
    cbn; [| discriminate].
  intros Hjoin Hj.
  destruct (join_dates_In _ _ _ _ _ _ _ _ Hjoin Hj)
    as [[] | ([gy se] & rowdf & _ & Hdse & Hj')].
  set (n := resolve dict_Georoc_sl dict_Georoc_GVP volcano) in *.
  destruct (date_rows str_Start_Year str_End_Year (volcano_rows df n) se)
    as [|r l] eqn:Hd.
  { rewrite (join_dse_no_event_row _ _ _ _ _ _ Hd) in Hdse. discriminate. }
  destruct (join_dse_shape str_Start_Year str_End_Year (volcano_rows df n)
              thisdf gy se) as (row & Hrow & Heq);
    [rewrite Hd; discriminate |].
  rewrite Heq in Hdse. injection Hdse as <-.
  apply in_map_iff in Hj' as (rw & <- & _). cbn [fst].
  unfold date_rows in Hrow. apply filter_In in Hrow as [Hrow _].
  apply In_volcano_rows in Hrow as (row0 & Hrow0 & Hname & ->).
  exists volcano, row0. repeat split; try assumption.
  cbn. now destruct (End_Year row0).
Qed.

(** X11.  With the selector ['all'] the joiner raises exactly when the date
    matcher returns a pair whose start and end strings no event row of the
    resolved volcano carries, and what it raises is [IndexError]. *)
Theorem joint_chemchart_all_raises_iff volcano thisdf e :
  update_joint_chemchart dict_Georoc_sl dict_Georoc_GVP df
    str_Start_Year str_End_Year match_GVPdates_forall match_GVPdates
    (Some volcano) thisdf "all"
  = Raise e
  <-> e = IndexError
      /\ volcano <> "start"
      /\ has_gvp_match dict_Georoc_sl dict_Georoc_GVP volcano = true
      /\ exists dse,
           In dse (match_GVPdates_forall volcano
                     (resolve dict_Georoc_sl dict_Georoc_GVP volcano))
           /\ date_rows str_Start_Year str_End_Year
                (volcano_rows df (resolve dict_Georoc_sl dict_Georoc_GVP volcano))
                (snd dse) = [].
Proof.
  unfold update_joint_chemchart.
  destruct (String.eqb volcano "start") eqn:Hstart.
  - apply String.eqb_eq in Hstart. split; [discriminate | tauto].
  - apply String.eqb_neq in Hstart.
    destruct (has_gvp_match _ _ volcano).
    + unfold all_dates_gvp. cbn [String.eqb Ascii.eqb Bool.eqb]. cbn [rbind].
      rewrite join_dates_raises. tauto.
    + split; [discriminate | intros (_ & _ & H & _); discriminate].
Qed.

(** X12.  For a single date that the date matcher does not find, the joined
    frame is empty: nothing is raised, whatever the tables and the sample
    frame hold. *)
Theorem date_not_found_joins_nothing volcano thisdf thisdate :
  thisdate <> "all" ->
  fst (match_GVPdates volcano thisdate
         (resolve dict_Georoc_sl dict_Georoc_GVP volcano)) = "not found" ->
  update_joint_chemchart dict_Georoc_sl dict_Georoc_GVP df
    str_Start_Year str_End_Year match_GVPdates_forall match_GVPdates
    (Some volcano) thisdf thisdate
  = Ok [].
Proof.
  intros Hall Hnf. unfold update_joint_chemchart.
  destruct (String.eqb volcano "start"); [reflexivity |].
  destruct (has_gvp_match _ _ volcano); [| reflexivity].
  unfold all_dates_gvp. apply String.eqb_neq in Hall. rewrite Hall, Hnf.
  reflexivity.
Qed.

(** X13.  For a single date that begins with a dash, as the date of a year
    before the common era does, and that the date matcher finds, the
    joiner raises [ValueError]: the text before the first dash is empty
    and is no integer. *)
Theorem dash_selector_raises volcano thisdf rest :
  volcano <> "start" ->
  has_gvp_match dict_Georoc_sl dict_Georoc_GVP volcano = true ->
  fst (match_GVPdates volcano (String "-" rest)
         (resolve dict_Georoc_sl dict_Georoc_GVP volcano)) <> "not found" ->
  update_joint_chemchart dict_Georoc_sl dict_Georoc_GVP df
    str_Start_Year str_End_Year match_GVPdates_forall match_GVPdates
    (Some volcano) thisdf (String "-" rest)
  = Raise ValueError.
Proof.
  intros Hstart Hgate Hfound. unfold update_joint_chemchart.
  apply String.eqb_neq in Hstart, Hfound. rewrite Hstart, Hgate.
  unfold all_dates_gvp. rewrite Hfound.
  change (String.eqb (String "-" rest) "all") with false. cbn [negb].
  rewrite before_dash_leading_dash. reflexivity.
Qed.

End PageMore.

Lemma joined_gvp_part_witness :
  let j := (colsGvp (fill_End_Year (gvp_event "Krakatau" 1883 (Some 5, Some 10))),
            krakatau_sample) in
  exists volcano row0,
    Some "KRAKATAU" = Some volcano
    /\ In row0 krakatau_events
    /\ Volcano_Name row0 = resolve ∅ gvp_krakatau volcano
    /\ fst j = colsGvp (fill_End_Year row0)
    /\ gvp_End_Year (fst j) = Some (default (Start_Year row0) (End_Year row0)).
Proof.
  intros j.
  apply (joined_gvp_part ∅ gvp_krakatau krakatau_events str_int str_cell
           (match_GVPdates_forall_spec krakatau_events) match_GVPdates_not_found
           (Some "KRAKATAU") [krakatau_sample] "all" [j] j).
  - vm_compute. reflexivity.
  - simpl. left. reflexivity.
Defined.

Lemma date_not_found_joins_nothing_witness :
  update_joint_chemchart ∅ gvp_krakatau krakatau_events str_int str_cell
    (match_GVPdates_forall_spec krakatau_events) match_GVPdates_not_found
    (Some "KRAKATAU") [krakatau_sample] "1883-05"
  = Ok [].
Proof.
  apply (date_not_found_joins_nothing ∅ gvp_krakatau krakatau_events
           str_int str_cell (match_GVPdates_forall_spec krakatau_events)
           match_GVPdates_not_found "KRAKATAU" [krakatau_sample] "1883-05").
  - intros H. discriminate H.
  - reflexivity.
Defined.

Lemma dash_selector_raises_witness :
  update_joint_chemchart ∅ gvp_krakatau krakatau_events str_int str_cell
    (match_GVPdates_forall_spec krakatau_events) match_GVPdates_1883
    (Some "KRAKATAU") [krakatau_sample] "-416-06"
  = Raise ValueError.
Proof.
  apply (dash_selector_raises ∅ gvp_krakatau krakatau_events
           str_int str_cell (match_GVPdates_forall_spec krakatau_events)
           match_GVPdates_1883 "KRAKATAU" [krakatau_sample] "416-06").
  - intros H. discriminate H.
  - vm_compute. reflexivity.
  - intros H. discriminate H.
Defined.

Lemma fallback_joins_whole_year_witness :
  let thisdf := [georoc_sample (Some 1883) None (Some 3) None;
                 krakatau_sample_month_0;
                 sample_of_year_0] in
  join_dse str_int str_cell (volcano_rows krakatau_events "Krakatau")
    thisdf (1883, ("1883", "1883"))
  = Ok (map (fun rw => (colsGvp (fill_End_Year
                                   (gvp_event "Krakatau" 1883 (Some 5, Some 10))),
                        rw))
            (List.filter
               (fun s => year_is 1883 s && notnan (ERUPTION_MONTH s)) thisdf))
  /\ List.filter (fun s => year_is 1883 s && notnan (ERUPTION_MONTH s)) thisdf
     = [krakatau_sample_month_0].
Proof.
  intros thisdf. split.
  - apply (fallback_joins_whole_year str_int str_cell
             (volcano_rows krakatau_events "Krakatau")
             thisdf 1883 ("1883", "1883")
             (fill_End_Year (gvp_event "Krakatau" 1883 (Some 5, Some 10))) []).
    + vm_compute. reflexivity.
    + vm_compute. reflexivity.
  - reflexivity.
Defined.

Lemma reconciled_samples_in_range_witness :
  let rows := [ (colsGvp (fill_End_Year
                            (gvp_event "Krakatau" 1883 (Some 5, Some 10))),
                 krakatau_sample) ] in
  In krakatau_sample (map snd rows)
  <-> In krakatau_sample [krakatau_sample_month_0; krakatau_sample]
      /\ ERUPTION_YEAR krakatau_sample = Some 1883
      /\ exists row a b m,
           In row (date_rows str_int str_cell
                     (volcano_rows krakatau_events "Krakatau") ("1883", "1883"))
           /\ Start_Month row = Some a /\ End_Month row = Some b
           /\ 0 < a /\ 0 < b
           /\ ERUPTION_MONTH krakatau_sample = Some m /\ a <= m <= b.
Proof.
  intros rows.
  apply (reconciled_samples_in_range str_int str_cell
           (volcano_rows krakatau_events "Krakatau")
           [krakatau_sample_month_0; krakatau_sample] 1883 ("1883", "1883")
           rows krakatau_sample).
  - vm_compute. reflexivity.
  - vm_compute. reflexivity.
Defined.

(** * Further properties of the name fallback and of the date selector *)

Lemma title_char (b : bool) (c : ascii) :
  let c' := if is_lower c then (if b then c else to_upper c)
            else if is_upper c then (if b then to_lower c else c)
            else c in
  (if is_lower c' then (if b then c' else to_upper c')
   else if is_upper c' then (if b then to_lower c' else c')
   else c') = c'
  /\ is_lower c' || is_upper c' = is_lower c || is_upper c.
Proof.
  destruct b, c as [[] [] [] [] [] [] [] []]; vm_compute; split; reflexivity.
Qed.

Lemma title_from_idempotent s : forall b,
  title_from b (title_from b s) = title_from b s.
Proof.
  induction s as [|c rest IH]; intros b; [reflexivity |].
  cbn [title_from]. destruct (title_char b c) as [Hc Hcased].
  cbv zeta in Hc, Hcased. rewrite Hc, Hcased, IH. reflexivity.
Qed.

Lemma title_from_length s : forall b,
  String.length (title_from b s) = String.length s.
Proof.
  induction s as [|c rest IH]; intros b; [reflexivity |].
  cbn [title_from String.length]. now rewrite IH.
Qed.

(** X14.  The title-cased fallback of a name has the length of the name, and
    title-casing it again changes nothing. *)
Theorem title_idempotent (s : string) :
  title (title s) = title s
  /\ String.length (title s) = String.length s.
Proof.
  unfold title. split; [apply title_from_idempotent | apply title_from_length].
Qed.

Lemma digit_not_dash (c : ascii) :
  (48 <=? Z.of_nat (nat_of_ascii c)) && (Z.of_nat (nat_of_ascii c) <=? 57)
  = true ->
  Ascii.eqb c "-"%char = false.
Proof.
  intros H. destruct (Ascii.eqb c "-"%char) eqn:E; [| reflexivity].
  apply Ascii.eqb_eq in E. subst c. discriminate H.
Qed.

Lemma before_dash_digits s rest : forall acc v,
  int_digits acc s = Some v ->
  before_dash (s ++ String "-" rest)%string = s.
Proof.
  induction s as [|c s IH]; intros acc v; cbn [int_digits].
  - intros _. reflexivity.
  - destruct ((48 <=? Z.of_nat (nat_of_ascii c))
              && (Z.of_nat (nat_of_ascii c) <=? 57)) eqn:Hd; [| discriminate].
    intros H.
    change (String c s ++ String "-" rest)%string
      with (String c (s ++ String "-" rest)%string).
    cbn [before_dash].
    rewrite (digit_not_dash c Hd). now rewrite (IH _ _ H).
Qed.

Lemma digits_not_all s rest acc v :
  s <> "" -> int_digits acc s = Some v ->
  String.eqb (s ++ String "-" rest)%string "all" = false.
Proof.
  destruct s as [|c s]; [contradiction |]. intros _. cbn [int_digits].
  destruct ((48 <=? Z.of_nat (nat_of_ascii c))
            && (Z.of_nat (nat_of_ascii c) <=? 57)) eqn:Hd; [| discriminate].
  intros _.
  change (String c s ++ String "-" rest)%string
    with (String c (s ++ String "-" rest)%string).
  cbn [String.eqb].
  destruct (Ascii.eqb c "a"%char) eqn:E; [| reflexivity].
  apply Ascii.eqb_eq in E. subst c. discriminate Hd.
Qed.

Section SelectorFacts.

Variable dict_Georoc_sl : gmap string string.
Variable dict_Georoc_GVP : gmap string string.
Variable df : list Event.
Variable str_Start_Year : Z -> string.
Variable str_End_Year : option Z -> string.
Variable match_GVPdates_forall : string -> string -> list (Z * (string * string)).
Variable match_GVPdates : string -> string -> string -> string * string.

(** X15.  For a single date made of decimal digits, a dash and any text,
    that the date matcher finds, the joined frame is what the one date
    pair adds whose year is the number before the first dash and whose
    start and end strings are the answer of the matcher. *)
Theorem single_date_joins_one_pair volcano thisdf digits rest year :
  volcano <> "start" ->
  has_gvp_match dict_Georoc_sl dict_Georoc_GVP volcano = true ->
  digits <> "" ->
  int_digits 0 digits = Some year ->
  let thisdate := (digits ++ String "-" rest)%string in
  let n := resolve dict_Georoc_sl dict_Georoc_GVP volcano in
  fst (match_GVPdates volcano thisdate n) <> "not found" ->
  update_joint_chemchart dict_Georoc_sl dict_Georoc_GVP df
    str_Start_Year str_End_Year match_GVPdates_forall match_GVPdates
    (Some volcano) thisdf thisdate
  = join_dse str_Start_Year str_End_Year (volcano_rows df n) thisdf
      (year, match_GVPdates volcano thisdate n).
Proof.
  intros Hstart Hgate Hne Hdigits thisdate n Hfound.
  unfold update_joint_chemchart.
  apply String.eqb_neq in Hstart, Hfound. rewrite Hstart, Hgate.
  fold n. unfold all_dates_gvp. fold thisdate. rewrite Hfound.
  unfold thisdate at 1. rewrite (digits_not_all _ rest _ _ Hne Hdigits).
  cbn [negb]. unfold thisdate at 1.
  rewrite (before_dash_digits _ rest _ _ Hdigits).
  unfold py_int. rewrite Hdigits.
  destruct digits as [|c digits']; [contradiction |].
  cbn [rbind join_dates].
  now destruct (join_dse _ _ (volcano_rows df n) thisdf _).
Qed.

End SelectorFacts.

Lemma single_date_joins_one_pair_witness :
  update_joint_chemchart ∅ gvp_krakatau krakatau_events str_int str_cell
    (match_GVPdates_forall_spec krakatau_events) match_GVPdates_1883
    (Some "KRAKATAU") [krakatau_sample] "1883-05"
  = join_dse str_int str_cell
      (volcano_rows krakatau_events (resolve ∅ gvp_krakatau "KRAKATAU"))
      [krakatau_sample] (1883, ("1883", "1883")).
Proof.
  apply (single_date_joins_one_pair ∅ gvp_krakatau krakatau_events
           str_int str_cell (match_GVPdates_forall_spec krakatau_events)
           match_GVPdates_1883 "KRAKATAU" [krakatau_sample] "1883" "05" 1883).
  - intros H. discriminate H.
  - vm_compute. reflexivity.
  - intros H. discriminate H.
  - reflexivity.
  - intros H. discriminate H.
Defined.
